(** * DATA_MCP: a session registry over an embedded interactive shell

    A shallow embedding of [DATA_MCP.py]: ANSI-code stripping, the
    [IPythonSession] wrapper with its execution history, the
    [IPythonSessionManager] registry, the [DataLoader] helpers and the
    tool operations built on them.

    Conventions.
    - A Python [str] is a [string]; the source is UTF-8 and every
      character the code inspects is ASCII, so working on the UTF-8 bytes
      agrees with working on code points.
    - A Python [dict] used as a map is a [gmap]; [None] is [None].
    - The interactive shell, the formatter, the file system and the
      data-frame readers are not part of this repository: they are the
      fields of the class [Runtime], and every definition is parametric
      in it.
    - A call that may raise returns a [result]; the state a call leaves
      behind is returned next to it. *)

From Stdlib Require Import Ascii.
From Equations Require Import Equations.
From Equations.Prop Require Import Logic.
From stdpp Require Import base option list strings pretty gmap sorting.

(** ** Characters and small string helpers *)

Definition ESC : ascii := "027"%char.
Definition LF : ascii := "010"%char.
Definition nl : string := String LF "".

Definition code (c : ascii) : N := N_of_ascii c.

Definition in_range (lo hi : N) (c : ascii) : bool :=
  ((lo <=? code c) && (code c <=? hi))%N.

(** [s.startswith('_')] *)
Definition starts_with_underscore (s : string) : bool :=
  match s with
  | String c _ => bool_decide (c = "_"%char)
  | EmptyString => false
  end.

Fixpoint skip_while (p : ascii → bool) (s : string) : string :=
  match s with
  | String c r => if p c then skip_while p r else s
  | EmptyString => s
  end.

(** [a in s] for a character. *)
Fixpoint has_char (a : ascii) (s : string) : bool :=
  match s with
  | String c r => bool_decide (c = a) || has_char a r
  | EmptyString => false
  end.

(** [t] is what is left of [s] after dropping some characters at its
    front. *)
Inductive suffix_of (t : string) : string → Prop :=
| suffix_here : suffix_of t t
| suffix_next c s : suffix_of t s → suffix_of t (String c s).

(** ** [remove_ansi_codes]

    The pattern is
    [\x1B(?:[@-Z\\-_]|\[[0-?]*[ -/]*[@-~])]. *)

(** [[@-Z\\-_]] *)
Definition is_fe (c : ascii) : bool := in_range 64 90 c || in_range 92 95 c.
(** [[0-?]] *)
Definition is_param (c : ascii) : bool := in_range 48 63 c.
(** [[ -/]] *)
Definition is_inter (c : ascii) : bool := in_range 32 47 c.
(** [[@-~]] *)
Definition is_final (c : ascii) : bool := in_range 64 126 c.

(** The group after [\x1B], tried at the start of [s]; the text after the
    match.  The three classes of the second alternative are pairwise
    disjoint, so the greedy runs are the only way to match and
    backtracking never finds another one. *)
Definition ansi_group (s : string) : option string :=
  match s with
  | String c r =>
      if is_fe c then Some r
      else if bool_decide (c = "["%char) then
        match skip_while is_inter (skip_while is_param r) with
        | String f r' => if is_final f then Some r' else None
        | EmptyString => None
        end
      else None
  | EmptyString => None
  end.

(** The whole pattern tried at the start of [s]. *)
Definition ansi_match (s : string) : option string :=
  match s with
  | String c r => if bool_decide (c = ESC) then ansi_group r else None
  | EmptyString => None
  end.

(** [ansi_escape.sub('', text)]: scan from the left; where the pattern
    matches, drop the match and go on after it; elsewhere keep the
    character. *)
Equations? ansi_sub (s : string) : string by wf (String.length s) lt :=
  ansi_sub EmptyString := EmptyString;
  ansi_sub (String c r) with inspect (ansi_match (String c r)) := {
    | exist _ (Some r') _ := ansi_sub r';
    | exist _ None _ := String c (ansi_sub r) }.
Proof.
  - (* the match starts with [ESC] and its rest is cut from [r] *)
    assert (∀ p t, String.length (skip_while p t) ≤ String.length t) as Hskip.
    { intros p t. induction t as [|a t IH]; simpl; [lia|].
      destruct (p a); simpl; lia. }
    simpl in e. destruct (bool_decide (c = ESC)); [|done].
    destruct r as [|d r]; simpl in e; [done|].
    destruct (is_fe d); [injection e as <-; simpl; lia|].
    destruct (bool_decide (d = "["%char)); [|done].
    pose proof (Hskip is_param r).
    pose proof (Hskip is_inter (skip_while is_param r)).
    destruct (skip_while is_inter (skip_while is_param r)) as [|f t]; [done|].
    destruct (is_final f); [|done].
    injection e as <-. simpl in *. lia.
  - simpl. lia.
Qed.

Definition remove_ansi_codes (text : string) : string :=
  if bool_decide (text = "") then text
  else ansi_sub text.

(** Some place of [s] where the pattern matches. *)
Definition has_ansi_match (s : string) : Prop :=
  ∃ t, suffix_of t s ∧ is_Some (ansi_match t).

(** Every [ESC] of [s] begins a sequence the pattern matches. *)
Definition esc_all_matched (s : string) : Prop :=
  ∀ t, suffix_of (String ESC t) s → is_Some (ansi_match (String ESC t)).

(** The pattern read as a set of texts: [ESC] and one character of
    [[@-Z\\-_]], or [ESC [], characters of [[0-?]], characters of
    [[ -/]] and one character of [[@-~]]. *)
Fixpoint all_chars (p : ascii → bool) (s : string) : bool :=
  match s with
  | String c r => p c && all_chars p r
  | EmptyString => true
  end.

Inductive ansi_seq : string → Prop :=
| ansi_seq_fe c :
    is_fe c = true → ansi_seq (String ESC (String c ""))
| ansi_seq_csi ps ins f :
    all_chars is_param ps = true →
    all_chars is_inter ins = true →
    is_final f = true →
    ansi_seq (String ESC (String "["%char (ps +:+ ins +:+ String f ""))).

Fixpoint take_while (p : ascii → bool) (s : string) : string :=
  match s with
  | String c r => if p c then String c (take_while p r) else ""
  | EmptyString => ""
  end.

(** ** Exceptions and results *)

(** The exception classes the handlers tell apart.  [UnicodeError] is a
    subclass of [ValueError]; [BaseExceptionOnly] stands for the classes
    that derive from [BaseException] but not from [Exception]
    ([KeyboardInterrupt], [SystemExit], [GeneratorExit]). *)
Inductive exc_class :=
| ValueError
| UnicodeError
| FileNotFoundError
| ImportError
| OtherException
| BaseExceptionOnly.

Global Instance exc_class_eq_dec : EqDecision exc_class.
Proof. solve_decision. Defined.

(** An exception object: its class, [str(e)], [bool(e)] and the text
    [traceback.format_exc()] gives while it is being handled. *)
Record exn := {
  exn_class : exc_class;
  exn_str : string;
  exn_bool : bool;
  exn_traceback : string
}.

(** [isinstance(e, Exception)] and the like. *)
Definition is_Exception (e : exn) : bool :=
  negb (bool_decide (exn_class e = BaseExceptionOnly)).
Definition is_ValueError (e : exn) : bool :=
  bool_decide (exn_class e = ValueError) || bool_decide (exn_class e = UnicodeError).
Definition is_UnicodeError (e : exn) : bool :=
  bool_decide (exn_class e = UnicodeError).
Definition is_FileNotFoundError (e : exn) : bool :=
  bool_decide (exn_class e = FileNotFoundError).

(** [raise ValueError(msg)] and so on, for the exceptions the code itself
    builds: a plain exception is truthy. *)
Definition mk_exn (c : exc_class) (msg : string) : exn :=
  {| exn_class := c; exn_str := msg; exn_bool := true; exn_traceback := "" |}.

Inductive result (A : Type) :=
| Ok (a : A)
| Raise (e : exn).
Arguments Ok {A} a.
Arguments Raise {A} e.

Definition rbind {A B} (r : result A) (k : A → result B) : result B :=
  match r with
  | Ok a => k a
  | Raise e => Raise e
  end.

(** [try: body  except <classes>: handler] *)
Definition try_except {A} (body : result A) (caught : exn → bool)
    (handler : exn → result A) : result A :=
  match body with
  | Ok a => Ok a
  | Raise e => if caught e then handler e else Raise e
  end.

(** Truthiness of an optional exception, [bool(x)] for [x] an exception
    or [None]. *)
Definition py_bool (x : option exn) : bool :=
  match x with
  | Some e => exn_bool e
  | None => false
  end.

(** [xs[-n:]] for [n > 0]. *)
Definition lastn {A} (n : nat) (xs : list A) : list A :=
  drop (length xs - n) xs.

(** ** The values outside the repository *)

(** [pyobj]: the objects an interpreter namespace holds (data frames
    among them); [pyfloat]: Python floats; [kernel]: the state of an
    [InteractiveShell] besides its colour scheme and user namespace. *)
Class Universe := {
  pyobj : Type;
  pyfloat : Type;
  kernel : Type
}.

Section Model.
Context `{U : Universe}.

(** What a tool puts in the dictionary it returns. *)
#[local] Set Warnings "-register-all".
Inductive pyval :=
| VNone
| VBool (b : bool)
| VInt (n : Z)
| VFloat (x : pyfloat)
| VStr (s : string)
| VList (l : list pyval)
| VDict (d : list (string * pyval)).

(** [Optional[str]] as a value. *)
Definition VOptStr (o : option string) : pyval :=
  match o with
  | Some s => VStr s
  | None => VNone
  end.

(** The part of an [InteractiveShell] the code reads and writes. *)
Record Shell := {
  colors : string;
  user_ns : gmap string pyobj;
  shell_kernel : kernel
}.

Definition set_colors (c : string) (sh : Shell) : Shell :=
  {| colors := c; user_ns := user_ns sh; shell_kernel := shell_kernel sh |}.
Definition set_user_ns (ns : gmap string pyobj) (sh : Shell) : Shell :=
  {| colors := colors sh; user_ns := ns; shell_kernel := shell_kernel sh |}.

(** The object [run_cell] returns. *)
Record RunCellResult := {
  rc_result : option pyobj;
  error_before_exec : option exn;
  error_in_exec : option exn
}.

(** One call of [run_cell]: the shell afterwards, what the cell wrote to
    the two standard streams, and the returned object or the exception
    that escaped. *)
Record CellRun := {
  cell_shell : Shell;
  cell_stdout : string;
  cell_stderr : string;
  cell_result : result RunCellResult
}.

(** A sheet selector, [Union[str, int]]. *)
Inductive sheet :=
| SheetName (s : string)
| SheetIndex (i : Z).

Definition sheet_val (sh : sheet) : pyval :=
  match sh with
  | SheetName s => VStr s
  | SheetIndex i => VInt i
  end.

(** What one call reads from the clock, the process and the random
    source: [uuid.uuid4().hex[:8]], [datetime.now().isoformat()] (twice
    in a constructor), [time.time()] at the start and at the end, and
    [psutil.Process().memory_info().rss / 1024 / 1024] at the start and
    at the end (these two may raise). *)
Record Readings := {
  uuid_hex8 : string;
  now_iso : string;
  now_iso' : string;
  time_start : pyfloat;
  time_end : pyfloat;
  rss_start : result pyfloat;
  rss_end : result pyfloat
}.

(** ** [ExecutionResult] and the session *)

Record ExecutionResult := {
  success : bool;
  er_execution_count : Z;
  stdout : string;
  stderr : string;
  result_text : option string;
  execution_time : pyfloat;
  memory_delta_mb : pyfloat;
  error : option string
}.

(** An entry of [IPythonSession.history] (a dictionary with exactly
    these keys). *)
Record HistoryEntry := {
  h_execution_count : Z;
  h_timestamp : string;
  h_code : string;
  h_success : bool;
  h_execution_time : pyfloat;
  h_stdout : string;
  h_stderr : string;
  h_result : option string;
  h_error : option string
}.

Record IPythonSession := {
  session_id : string;
  created_at : string;
  last_used : string;
  execution_count : Z;
  history : list HistoryEntry;
  shell : Shell
}.

Definition set_last_used (t : string) (s : IPythonSession) : IPythonSession :=
  {| session_id := session_id s; created_at := created_at s; last_used := t;
     execution_count := execution_count s; history := history s; shell := shell s |}.
Definition set_execution_count (n : Z) (s : IPythonSession) : IPythonSession :=
  {| session_id := session_id s; created_at := created_at s; last_used := last_used s;
     execution_count := n; history := history s; shell := shell s |}.
Definition set_history (h : list HistoryEntry) (s : IPythonSession) : IPythonSession :=
  {| session_id := session_id s; created_at := created_at s; last_used := last_used s;
     execution_count := execution_count s; history := h; shell := shell s |}.
Definition set_shell (sh : Shell) (s : IPythonSession) : IPythonSession :=
  {| session_id := session_id s; created_at := created_at s; last_used := last_used s;
     execution_count := execution_count s; history := history s; shell := sh |}.

(** [IPythonSessionManager]: the map from session id to session.  Its
    lock has no counterpart in a sequential model. *)
Record IPythonSessionManager := {
  sessions : gmap string IPythonSession
}.

(** The module-level [_session_manager], [None] until first used. *)
Definition Globals : Type := option IPythonSessionManager.

(** The session map a caller can observe. *)
Definition session_map (g : Globals) : gmap string IPythonSession :=
  match g with
  | Some m => sessions m
  | None => ∅
  end.

(** The tools that only read one session, with their arguments besides
    the session id. *)
Inductive inspection :=
| GetSessionStatus
| ListDataframes
| GetDataframeInfo (variable_name : string)
| PreviewDataframe (variable_name method : string) (n_rows : Z)
| GetDataframeSummary (variable_name : string) (include_categorical : bool)
| CheckMemoryUsage
| GetVariableInfo (variable_name : string) (include_preview : bool)
| SampleColumnData (variable_name column_name method : string)
    (sample_size : Z) (include_stats : bool) (max_text_length : Z).

(** ** The runtime the code delegates to

    Everything a function of the repository calls and does not define:
    the availability flags set at import, float arithmetic, the
    interactive shell and its formatter, introspection of objects, the
    file system and the data-frame readers.  Formatting and
    introspection are taken not to change the shell. *)
Class Runtime := {
  (* set by the guarded imports at the top of the module *)
  IPYTHON_AVAILABLE : bool;
  PANDAS_AVAILABLE : bool;
  PSUTIL_AVAILABLE : bool;
  EXCEL_XLSX_AVAILABLE : bool;
  EXCEL_XLS_AVAILABLE : bool;
  (* [0.0], [x - y], [round(x, n)] *)
  fzero : pyfloat;
  fsub : pyfloat → pyfloat → pyfloat;
  fround : pyfloat → Z → pyfloat;
  (* [InteractiveShell()] *)
  InteractiveShell : result Shell;
  (* [shell.display_formatter.formatters['text/plain'].verbose = False] *)
  quiet_plain_formatter : Shell → result Shell;
  (* [shell.enable_gui = lambda x: None] *)
  disable_gui : Shell → Shell;
  (* [shell.run_cell(code, store_history=...)] *)
  run_cell : string → bool → Shell → CellRun;
  (* [shell.display_formatter.format(obj, include=['text/plain'])[0]
     .get('text/plain')] *)
  display_format : Shell → pyobj → result (option string);
  (* [shell.display_formatter.formatters['text/plain'](obj)] *)
  plain_format : Shell → pyobj → result (option string);
  (* [hasattr(obj, 'to_string')], [obj.to_string()],
     [hasattr(obj, '__array__')], [str(obj)] *)
  has_to_string : pyobj → bool;
  to_string : pyobj → result string;
  has_array : pyobj → bool;
  py_str : pyobj → result string;
  (* the [var_info] dictionary [get_variables] builds for one value *)
  var_info : pyobj → list (string * pyval);
  (* [list(df.shape)], [list(df.columns)], the [dtypes] dictionary and
     [df.memory_usage(deep=True).sum() / 1024 / 1024] *)
  frame_info : pyobj → result (pyval * pyval * pyval * pyfloat);
  (* [hasattr(v, '__module__') and 'module' in type(v).__name__.lower()] *)
  is_module : pyobj → bool;
  (* [os.path.exists], [Path(p).stem], [Path(p).suffix.lower()] *)
  path_exists : string → bool;
  path_stem : string → string;
  path_suffix_lower : string → string;
  (* [with open(p, 'r', encoding=enc) as f: f.read(1024)] *)
  open_read : string → string → result unit;
  (* [pd.read_csv(p, encoding=enc)],
     [pd.read_excel(p, sheet_name=s, engine=e)], [pd.read_json(p)] *)
  read_csv : string → string → result pyobj;
  read_excel : string → sheet → option string → result pyobj;
  read_json : string → result pyobj;
  (* the body of a read-only tool after its session lookup, and the
     [SessionInfo] of one session as a dictionary: introspection and
     data-frame calls from end to end *)
  run_inspection : inspection → IPythonSession → result (gmap string pyval);
  session_summary : string → IPythonSession → result pyval
}.

Context `{RT : Runtime}.

Definition EXCEL_AVAILABLE : bool := EXCEL_XLSX_AVAILABLE || EXCEL_XLS_AVAILABLE.

(** ** [IPythonSession] *)

(** [if s:] for an optional string. *)
Definition truthy_str (o : option string) : bool :=
  match o with
  | Some s => negb (bool_decide (s = ""))
  | None => false
  end.

(** The second [try] of [_format_result]. *)
Definition format_fallback (o : pyobj) : result string :=
  try_except
    (if has_to_string o then to_string o
     else if has_array o then py_str o
     else py_str o)
    is_Exception
    (λ _, py_str o).

Definition _format_result (sh : Shell) (result_obj : option pyobj)
    : result (option string) :=
  match result_obj with
  | None => Ok None
  | Some o =>
      match display_format sh o with
      | Ok formatted_result =>
          if truthy_str formatted_result then Ok formatted_result
          else rbind (format_fallback o) (λ s, Ok (Some s))
      | Raise e =>
          if is_Exception e then rbind (format_fallback o) (λ s, Ok (Some s))
          else Raise e
      end
  end.

Definition _format_result_direct (sh : Shell) (result_obj : option pyobj)
    : result (option string) :=
  match result_obj with
  | None => Ok None
  | Some o =>
      match plain_format sh o with
      | Ok formatted_result =>
          if truthy_str formatted_result then Ok formatted_result
          else _format_result sh result_obj
      | Raise e =>
          if is_Exception e then _format_result sh result_obj
          else Raise e
      end
  end.

(** [_get_memory_usage], given what the process reading gives. *)
Definition _get_memory_usage (rss : result pyfloat) : pyfloat :=
  if negb PSUTIL_AVAILABLE then fzero
  else match rss with
       | Ok mb => mb
       | Raise _ => fzero
       end.

(** The [except Exception as e] branch shared by [execute] and
    [execute_expression_only]. *)
Definition execution_error (rd : Readings) (self : IPythonSession) (e : exn)
    : ExecutionResult :=
  let execution_time := fsub (time_end rd) (time_start rd) in
  let error_msg := "执行错误: " +:+ exn_str e +:+ nl +:+ exn_traceback e in
  {| success := false;
     er_execution_count := execution_count self;
     stdout := "";
     stderr := "";
     result_text := None;
     execution_time := execution_time;
     memory_delta_mb := fzero;
     error := Some (remove_ansi_codes error_msg) |}.

Definition on_execution_error (rd : Readings) (self : IPythonSession) (e : exn)
    : result ExecutionResult * IPythonSession :=
  if is_Exception e then (Ok (execution_error rd self e), self)
  else (Raise e, self).

(** [self.history.append(entry)] and the trim that follows it. *)
Definition record_history (entry : HistoryEntry) (h : list HistoryEntry)
    : list HistoryEntry :=
  let h := h ++ [entry] in
  if 100 <? length h then lastn 100 h else h.

(** The common body of the two execution methods; [capture] says whether
    the cell runs under [capture_output()], [fmt] is the formatter used
    for the cell's value. *)
Definition execute_with (capture : bool)
    (fmt : Shell → option pyobj → result (option string))
    (rd : Readings) (code : string) (self : IPythonSession)
    : result ExecutionResult * IPythonSession :=
  let self := set_last_used (now_iso rd) self in
  let start_time := time_start rd in
  let initial_memory := _get_memory_usage (rss_start rd) in
  let original_colors := colors (shell self) in
  let run := run_cell code true (set_colors "NoColor" (shell self)) in
  match cell_result run with
  | Raise e => on_execution_error rd (set_shell (cell_shell run) self) e
  | Ok execution_result =>
      let sh := set_colors original_colors (cell_shell run) in
      let self := set_execution_count (execution_count self + 1) (set_shell sh self) in
      let execution_time := fsub (time_end rd) start_time in
      let current_memory := _get_memory_usage (rss_end rd) in
      let memory_delta := fsub current_memory initial_memory in
      let stdout := if capture then remove_ansi_codes (cell_stdout run) else "" in
      let stderr := if capture then remove_ansi_codes (cell_stderr run) else "" in
      match fmt sh (rc_result execution_result) with
      | Raise e => on_execution_error rd self e
      | Ok formatted_result =>
          let error_msg :=
            match error_in_exec execution_result with
            | Some e => if exn_bool e then Some (remove_ansi_codes (exn_str e)) else None
            | None => None
            end in
          let ok := negb (py_bool (error_in_exec execution_result)) in
          let history_entry :=
            {| h_execution_count := execution_count self;
               h_timestamp := last_used self;
               h_code := code;
               h_success := ok;
               h_execution_time := execution_time;
               h_stdout := stdout;
               h_stderr := stderr;
               h_result := formatted_result;
               h_error := error_msg |} in
          let self := set_history (record_history history_entry (history self)) self in
          (Ok {| success := ok;
                 er_execution_count := execution_count self;
                 stdout := stdout;
                 stderr := stderr;
                 result_text := formatted_result;
                 execution_time := execution_time;
                 memory_delta_mb := memory_delta;
                 error := error_msg |},
           self)
      end
  end.

Definition execute : Readings → string → IPythonSession →
    result ExecutionResult * IPythonSession :=
  execute_with true _format_result.

Definition execute_expression_only : Readings → string → IPythonSession →
    result ExecutionResult * IPythonSession :=
  execute_with false _format_result_direct.

(** The names [get_variables] leaves out. *)
Definition reserved_names : list string :=
  ["In"; "Out"; "get_ipython"; "exit"; "quit"].

Definition user_visible (name : string) : bool :=
  negb (starts_with_underscore name) && negb (bool_decide (name ∈ reserved_names)).

Definition get_variables (self : IPythonSession)
    : gmap string (list (string * pyval)) :=
  var_info <$> filter (λ kv, Is_true (user_visible kv.1)) (user_ns (shell self)).

(** The cell [_auto_import_libraries] runs, line by line as in the
    source ([DQ] is the double quote). *)
Definition DQ : string := String "034"%char "".

Definition lines (l : list string) : string :=
  foldr (λ x acc, x +:+ nl +:+ acc) "" l.

Definition import_code : string :=
  lines [""; "            import pandas as pd";
         "            import numpy as np";
         "            import json";
         "            import os";
         "            import sys";
         "            from pathlib import Path";
         "            import warnings";
         "            warnings.filterwarnings('ignore')";
         "";
         "            # 设置pandas显示选项";
         "            pd.set_option('display.max_columns', None)";
         "            pd.set_option('display.width', None)";
         "            pd.set_option('display.max_colwidth', 100)";
         "";
         "            print(" +:+ DQ +:+ "✓ 已自动导入: pandas, numpy, json, os, sys, pathlib"
           +:+ DQ +:+ ")"]
  +:+ "            ".

Definition auto_imported_names : list string :=
  ["pandas"; "numpy"; "json"; "os"; "sys"; "pathlib"].

(** [_auto_import_libraries]: the list it returns and the shell it
    leaves; what it prints goes to the process, not to a caller. *)
Definition _auto_import_libraries (sh : Shell) : result (list string) * Shell :=
  let run := run_cell import_code false sh in
  match cell_result run with
  | Ok r => (Ok (if py_bool (error_in_exec r) then [] else auto_imported_names),
             cell_shell run)
  | Raise e => (if is_Exception e then Ok [] else Raise e, cell_shell run)
  end.

(** [IPythonSession.__init__] *)
Definition IPythonSession_init (rd : Readings) (sid : string) (auto_import : bool)
    : result IPythonSession :=
  if negb IPYTHON_AVAILABLE then
    Raise (mk_exn ImportError "IPython is required but not available")
  else
    rbind InteractiveShell (λ sh,
      let sh := set_colors "NoColor" sh in
      let sh := match quiet_plain_formatter sh with
                | Ok sh' => sh'
                | Raise _ => sh
                end in
      let sh := disable_gui sh in
      let sh := cell_shell (run_cell "import matplotlib; matplotlib.use('Agg')" false sh) in
      let mk sh := {| session_id := sid; created_at := now_iso rd; last_used := now_iso' rd;
                      execution_count := 0; history := []; shell := sh |} in
      if auto_import then
        let '(r, sh) := _auto_import_libraries sh in
        rbind r (λ _, Ok (mk sh))
      else Ok (mk sh)).

(** ** [IPythonSessionManager] *)

Definition create_session (rd : Readings) (sid : option string) (auto_import : bool)
    (self : IPythonSessionManager) : result string * IPythonSessionManager :=
  let sid := match sid with
             | None => "session_" +:+ uuid_hex8 rd
             | Some s => s
             end in
  if decide (sid ∈ dom (sessions self)) then
    (Raise (mk_exn ValueError ("Session " +:+ sid +:+ " already exists")), self)
  else
    match IPythonSession_init rd sid auto_import with
    | Raise e => (Raise e, self)
    | Ok session => (Ok sid, {| sessions := <[sid := session]> (sessions self) |})
    end.

Definition get_session (sid : string) (self : IPythonSessionManager)
    : result IPythonSession :=
  match sessions self !! sid with
  | None => Raise (mk_exn ValueError ("Session " +:+ sid +:+ " not found"))
  | Some s => Ok s
  end.

Definition delete_session (sid : string) (self : IPythonSessionManager)
    : bool * IPythonSessionManager :=
  if decide (sid ∈ dom (sessions self)) then
    (true, {| sessions := delete sid (sessions self) |})
  else (false, self).

(** The session object is shared: what a method did to it is seen through
    the map. *)
Definition put_session (sid : string) (s : IPythonSession)
    (self : IPythonSessionManager) : IPythonSessionManager :=
  {| sessions := <[sid := s]> (sessions self) |}.

Definition get_session_manager (g : Globals) : IPythonSessionManager * Globals :=
  match g with
  | Some m => (m, g)
  | None => ({| sessions := ∅ |}, Some {| sessions := ∅ |})
  end.

(** ** [DataLoader] *)

Definition encodings : list string :=
  ["utf-8"; "gb18030"; "gbk"; "gb2312"; "latin-1"].

Fixpoint detect_encoding_from (encs : list string) (file_path : string)
    : result string :=
  match encs with
  | [] => Ok "utf-8"
  | encoding :: rest =>
      match open_read file_path encoding with
      | Ok _ => Ok encoding
      | Raise e =>
          if is_UnicodeError e then detect_encoding_from rest file_path
          else Raise e
      end
  end.

Definition detect_encoding (file_path : string) : result string :=
  detect_encoding_from encodings file_path.

Definition load_time (rd : Readings) : pyfloat :=
  fsub (time_end rd) (time_start rd).

Definition load_csv (rd : Readings) (file_path encoding : string)
    : result (pyobj * string * pyfloat) :=
  if negb PANDAS_AVAILABLE then
    Raise (mk_exn ImportError "pandas is required for CSV loading")
  else if negb (path_exists file_path) then
    Raise (mk_exn FileNotFoundError ("File not found: " +:+ file_path))
  else
    rbind (if bool_decide (encoding = "auto") then detect_encoding file_path
           else Ok encoding) (λ encoding,
    rbind (read_csv file_path encoding) (λ df,
    Ok (df, encoding, load_time rd))).

(** The [for alt_engine in ['openpyxl', 'xlrd']] loop with its [else]. *)
Fixpoint read_excel_alt (engines : list string) (file_path : string)
    (sheet_name : sheet) (e : exn) : result pyobj :=
  match engines with
  | [] => Raise e
  | alt_engine :: rest =>
      match read_excel file_path sheet_name (Some alt_engine) with
      | Ok df => Ok df
      | Raise _ => read_excel_alt rest file_path sheet_name e
      end
  end.

Definition load_excel (rd : Readings) (file_path : string) (sheet_name : sheet)
    : result (pyobj * pyfloat) :=
  if negb PANDAS_AVAILABLE then
    Raise (mk_exn ImportError "pandas is required for Excel loading")
  else if negb EXCEL_AVAILABLE then
    Raise (mk_exn ImportError
      "Excel support libraries are required. Install with: pip install openpyxl xlrd")
  else if negb (path_exists file_path) then
    Raise (mk_exn FileNotFoundError ("File not found: " +:+ file_path))
  else
    let file_extension := path_suffix_lower file_path in
    rbind
      (if bool_decide (file_extension = ".xlsx") then
         if negb EXCEL_XLSX_AVAILABLE then
           Raise (mk_exn ImportError
             "openpyxl is required for .xlsx files. Install with: pip install openpyxl")
         else Ok (Some "openpyxl")
       else if bool_decide (file_extension = ".xls") then
         if negb EXCEL_XLS_AVAILABLE then
           Raise (mk_exn ImportError
             "xlrd is required for .xls files. Install with: pip install xlrd")
         else Ok (Some "xlrd")
       else Ok None) (λ engine,
    rbind
      (try_except (read_excel file_path sheet_name engine) is_Exception (λ e,
         if bool_decide (engine = None)
            && negb (bool_decide (file_extension ∈ [".xlsx"; ".xls"]))
         then read_excel_alt ["openpyxl"; "xlrd"] file_path sheet_name e
         else Raise e)) (λ df,
    Ok (df, load_time rd))).

Definition load_json (rd : Readings) (file_path : string)
    : result (pyobj * pyfloat) :=
  if negb PANDAS_AVAILABLE then
    Raise (mk_exn ImportError "pandas is required for JSON loading")
  else if negb (path_exists file_path) then
    Raise (mk_exn FileNotFoundError ("File not found: " +:+ file_path))
  else
    rbind (read_json file_path) (λ df, Ok (df, load_time rd)).

(** ** The tool operations

    A tool returns a dictionary, here a [gmap] from key to value, next to
    the module state it leaves.  [Raise] as the outcome of a tool means
    the exception left the tool function. *)

Definition failure (msg : string) : gmap string pyval :=
  {[ "success" := VBool false; "error" := VStr msg ]}.

(** An [except <class> as e: return {"success": False, "error": prefix +
    str(e)}] clause. *)
Definition except_as (caught : exn → bool) (prefix : string)
    (r : result (gmap string pyval)) : result (gmap string pyval) :=
  try_except r caught (λ e, Ok (failure (prefix +:+ exn_str e))).

(** The three shapes of handler list the tools end with. *)
Definition except_Exception (prefix : string) r :=
  except_as is_Exception prefix r.
Definition except_ValueError_Exception (prefix : string) r :=
  except_as is_Exception prefix (except_as is_ValueError "" r).
Definition except_FileNotFound_ValueError_Exception (prefix : string) r :=
  except_as is_Exception prefix
    (except_as is_ValueError "" (except_as is_FileNotFoundError "" r)).

(** The outcome of a [try] body together with the state it leaves. *)
Definition body_result : Type := result (gmap string pyval) * Globals.

Definition create_ipython_session_body (rd : Readings) (sid : option string)
    (auto_import : bool) (g : Globals) : body_result :=
  if negb IPYTHON_AVAILABLE then
    (Ok (failure "IPython is not available. Please install with: pip install ipython"), g)
  else
    let '(manager, _) := get_session_manager g in
    let '(r, manager) := create_session rd sid auto_import manager in
    (rbind r (λ created_session_id,
       Ok {[ "success" := VBool true;
             "session_id" := VStr created_session_id;
             "message" := VStr ("IPython session " +:+ created_session_id
                                +:+ " created successfully");
             "auto_imported" :=
               VList (VStr <$> (if auto_import then auto_imported_names else [])) ]}),
     Some manager).

Definition create_ipython_session rd sid auto_import g : body_result :=
  let '(r, g) := create_ipython_session_body rd sid auto_import g in
  (except_Exception "Failed to create session: " r, g).

Definition delete_ipython_session_body (sid : string) (g : Globals) : body_result :=
  let '(manager, _) := get_session_manager g in
  let '(ok, manager) := delete_session sid manager in
  (Ok (if ok then
         {[ "success" := VBool true;
            "message" := VStr ("Session " +:+ sid +:+ " deleted successfully") ]}
       else failure ("Session " +:+ sid +:+ " not found")),
   Some manager).

Definition delete_ipython_session sid g : body_result :=
  let '(r, g) := delete_ipython_session_body sid g in
  (except_Exception "Failed to delete session: " r, g).

Definition execute_code_body (rd : Readings) (code sid : string)
    (capture_output expression_only : bool) (g : Globals) : body_result :=
  let '(manager, _) := get_session_manager g in
  match get_session sid manager with
  | Raise e => (Raise e, Some manager)
  | Ok session =>
      let '(r, session) :=
        if expression_only then execute_expression_only rd code session
        else execute rd code session in
      (rbind r (λ result,
         Ok {[ "success" := VBool (success result);
               "execution_count" := VInt (er_execution_count result);
               "stdout" := VStr (stdout result);
               "stderr" := VStr (stderr result);
               "result" := VOptStr (result_text result);
               "execution_time" := VFloat (fround (execution_time result) 3);
               "memory_delta_mb" := VFloat (fround (memory_delta_mb result) 2);
               "error" := VOptStr (error result) ]}),
       Some (put_session sid session manager))
  end.

Definition execute_code rd code sid capture_output expression_only g : body_result :=
  let '(r, g) := execute_code_body rd code sid capture_output expression_only g in
  (except_ValueError_Exception "Failed to execute code: " r, g).

(** A history entry as the dictionary it is, without the three output
    keys when [include_output] is false. *)
Definition entry_val (include_output : bool) (h : HistoryEntry) : pyval :=
  VDict ([("execution_count", VInt (h_execution_count h));
          ("timestamp", VStr (h_timestamp h));
          ("code", VStr (h_code h));
          ("success", VBool (h_success h));
          ("execution_time", VFloat (h_execution_time h))]
         ++ (if include_output then
               [("stdout", VStr (h_stdout h)); ("stderr", VStr (h_stderr h));
                ("result", VOptStr (h_result h))]
             else [])
         ++ [("error", VOptStr (h_error h))]).

Definition get_execution_history_body (sid : string) (limit : Z)
    (include_output : bool) (g : Globals) : body_result :=
  let '(manager, _) := get_session_manager g in
  match get_session sid manager with
  | Raise e => (Raise e, Some manager)
  | Ok session =>
      let shown :=
        if (0 <? limit)%Z then lastn (Z.to_nat limit) (history session)
        else history session in
      (Ok {[ "success" := VBool true;
             "history" := VList (entry_val include_output <$> shown);
             "total_executions" := VInt (Z.of_nat (length (history session))) ]},
       Some manager)
  end.

Definition get_execution_history sid limit include_output g : body_result :=
  let '(r, g) := get_execution_history_body sid limit include_output g in
  (except_ValueError_Exception "Failed to get execution history: " r, g).

(** *** Loading a file into a session *)

(** [f"df_{base_name}_{counter}"] *)
Definition candidate (base_name : string) (counter : nat) : string :=
  "df_" +:+ base_name +:+ "_" +:+ pretty counter.

(** The [while variable_name in variables] loop.  Every turn meets a
    different key of [variables], so [fuel] beyond their number is never
    used up ([name_loop_exits] below). *)
Fixpoint name_loop {V} (fuel : nat) (variables : gmap string V) (base_name : string)
    (variable_name : string) (counter : nat) : option string :=
  if decide (variable_name ∈ dom variables) then
    match fuel with
    | 0 => None
    | S fuel =>
        name_loop fuel variables base_name (candidate base_name counter) (S counter)
    end
  else Some variable_name.

Definition auto_variable_name (session : IPythonSession) (file_path : string)
    : string :=
  let base_name := path_stem file_path in
  let variable_name := "df_" +:+ base_name in
  let variables := get_variables session in
  default variable_name
    (name_loop (size variables) variables base_name variable_name 1).

(** [session.shell.user_ns[variable_name] = df] *)
Definition bind_variable (variable_name : string) (df : pyobj)
    (session : IPythonSession) : IPythonSession :=
  set_shell (set_user_ns (<[variable_name := df]> (user_ns (shell session)))
               (shell session)) session.

(** What the three loaders share after the frame is read: choose the
    name, bind it, describe the frame.  [extra] are the keys special to
    the loader. *)
Definition store_frame (sid : string) (session : IPythonSession)
    (manager : IPythonSessionManager) (file_path : string)
    (variable_name : option string) (df : pyobj) (load_time : pyfloat)
    (extra : gmap string pyval) : body_result :=
  let variable_name :=
    match variable_name with
    | None => auto_variable_name session file_path
    | Some v => v
    end in
  let session := bind_variable variable_name df session in
  (rbind (frame_info df) (λ '(shape, columns, dtypes_dict, memory_usage_mb),
     Ok (<["success" := VBool true]>
         (<["variable_name" := VStr variable_name]>
         (<["shape" := shape]>
         (<["columns" := columns]>
         (<["dtypes" := dtypes_dict]>
         (<["memory_usage_mb" := VFloat (fround memory_usage_mb 2)]>
         (<["load_time" := VFloat (fround load_time 3)]> extra)))))))),
   Some (put_session sid session manager)).

Definition pandas_missing : gmap string pyval :=
  failure "pandas is not available. Please install with: pip install pandas numpy".

Definition load_csv_file_body (rd : Readings) (file_path sid : string)
    (variable_name : option string) (encoding : string) (g : Globals) : body_result :=
  if negb PANDAS_AVAILABLE then (Ok pandas_missing, g)
  else
    let '(manager, _) := get_session_manager g in
    match get_session sid manager with
    | Raise e => (Raise e, Some manager)
    | Ok session =>
        match load_csv rd file_path encoding with
        | Raise e => (Raise e, Some manager)
        | Ok (df, detected_encoding, load_time) =>
            store_frame sid session manager file_path variable_name df load_time
              {[ "encoding_detected" := VStr detected_encoding ]}
        end
    end.

Definition load_csv_file rd file_path sid variable_name encoding g : body_result :=
  let '(r, g) := load_csv_file_body rd file_path sid variable_name encoding g in
  (except_FileNotFound_ValueError_Exception "Failed to load CSV file: " r, g).

Definition load_excel_file_body (rd : Readings) (file_path sid : string)
    (variable_name : option string) (sheet_name : sheet) (g : Globals) : body_result :=
  if negb PANDAS_AVAILABLE then (Ok pandas_missing, g)
  else if negb EXCEL_AVAILABLE then
    (Ok (failure
      "Excel support libraries are not available. Please install with: pip install openpyxl xlrd"),
     g)
  else
    let '(manager, _) := get_session_manager g in
    match get_session sid manager with
    | Raise e => (Raise e, Some manager)
    | Ok session =>
        match load_excel rd file_path sheet_name with
        | Raise e => (Raise e, Some manager)
        | Ok (df, load_time) =>
            store_frame sid session manager file_path variable_name df load_time
              {[ "sheet_name" := sheet_val sheet_name ]}
        end
    end.

Definition load_excel_file rd file_path sid variable_name sheet_name g : body_result :=
  let '(r, g) := load_excel_file_body rd file_path sid variable_name sheet_name g in
  (except_FileNotFound_ValueError_Exception "Failed to load Excel file: " r, g).

Definition load_json_file_body (rd : Readings) (file_path sid : string)
    (variable_name : option string) (g : Globals) : body_result :=
  if negb PANDAS_AVAILABLE then (Ok pandas_missing, g)
  else
    let '(manager, _) := get_session_manager g in
    match get_session sid manager with
    | Raise e => (Raise e, Some manager)
    | Ok session =>
        match load_json rd file_path with
        | Raise e => (Raise e, Some manager)
        | Ok (df, load_time) =>
            store_frame sid session manager file_path variable_name df load_time ∅
        end
    end.

Definition load_json_file rd file_path sid variable_name g : body_result :=
  let '(r, g) := load_json_file_body rd file_path sid variable_name g in
  (except_FileNotFound_ValueError_Exception "Failed to load JSON file: " r, g).

(** *** Clearing variables *)

(** [for name in names: if name in user_ns: del user_ns[name];
    cleared_variables.append(name)] *)
Fixpoint delete_names (names : list string) (ns : gmap string pyobj)
    (cleared : list string) : gmap string pyobj * list string :=
  match names with
  | [] => (ns, cleared)
  | name :: rest =>
      if decide (name ∈ dom ns) then delete_names rest (delete name ns) (cleared ++ [name])
      else delete_names rest ns cleared
  end.

(** The names [clear_all] collects; a [dict] is walked in insertion
    order, a [gmap] in key order, so [cleared_variables] may come out in
    another order than in Python. *)
Definition names_to_delete (keep_imports : bool) (ns : gmap string pyobj)
    : list string :=
  (map_to_list ns) ≫= (λ '(name, value),
    if user_visible name then
      if keep_imports && is_module value then [] else [name]
    else []).

Definition clear_variables_body (rd : Readings) (sid : string)
    (variable_names : option (list string)) (clear_all keep_imports : bool)
    (g : Globals) : body_result :=
  let '(manager, _) := get_session_manager g in
  match get_session sid manager with
  | Raise e => (Raise e, Some manager)
  | Ok session =>
      let initial_memory := _get_memory_usage (rss_start rd) in
      let user_ns := user_ns (shell session) in
      let names :=
        if clear_all then Some (names_to_delete keep_imports user_ns)
        else match variable_names with
             | Some (n :: ns) => Some (n :: ns)
             | _ => None
             end in
      match names with
      | None =>
          (Ok (failure "Must specify either variable_names or set clear_all=True"),
           Some manager)
      | Some names =>
          let '(ns, cleared_variables) := delete_names names user_ns [] in
          let session := set_shell (set_user_ns ns (shell session)) session in
          let final_memory := _get_memory_usage (rss_end rd) in
          let memory_freed := fsub initial_memory final_memory in
          let variables_after := get_variables session in
          (Ok {[ "success" := VBool true;
                 "cleared_variables" := VList (VStr <$> cleared_variables);
                 "memory_freed_mb" := VFloat (fround memory_freed 2);
                 "remaining_variables" := VInt (Z.of_nat (size variables_after)) ]},
           Some (put_session sid session manager))
      end
  end.

Definition clear_variables rd sid variable_names clear_all keep_imports g : body_result :=
  let '(r, g) := clear_variables_body rd sid variable_names clear_all keep_imports g in
  (except_ValueError_Exception "Failed to clear variables: " r, g).

(** *** The read-only tools *)

Fixpoint summaries (l : list (string * IPythonSession)) : result (list pyval) :=
  match l with
  | [] => Ok []
  | (sid, session) :: rest =>
      rbind (session_summary sid session) (λ info,
      rbind (summaries rest) (λ infos, Ok (info :: infos)))
  end.

Definition list_ipython_sessions_body (g : Globals) : body_result :=
  let '(manager, _) := get_session_manager g in
  (rbind (summaries (map_to_list (sessions manager))) (λ infos,
     Ok {[ "success" := VBool true;
           "sessions" := VList infos;
           "total_sessions" := VInt (Z.of_nat (length infos)) ]}),
   Some manager).

Definition list_ipython_sessions g : body_result :=
  let '(r, g) := list_ipython_sessions_body g in
  (except_Exception "Failed to list sessions: " r, g).

Definition inspection_prefix (q : inspection) : string :=
  match q with
  | GetSessionStatus => "Failed to get session status: "
  | ListDataframes => "Failed to list dataframes: "
  | GetDataframeInfo _ => "Failed to get dataframe info: "
  | PreviewDataframe _ _ _ => "Failed to preview dataframe: "
  | GetDataframeSummary _ _ => "Failed to get dataframe summary: "
  | CheckMemoryUsage => "Failed to check memory usage: "
  | GetVariableInfo _ _ => "Failed to get variable info: "
  | SampleColumnData _ _ _ _ _ _ => "Failed to sample column data: "
  end.

Definition inspection_body (q : inspection) (sid : string) (g : Globals)
    : body_result :=
  let '(manager, _) := get_session_manager g in
  match get_session sid manager with
  | Raise e => (Raise e, Some manager)
  | Ok session => (run_inspection q session, Some manager)
  end.

Definition inspection_tool q sid g : body_result :=
  let '(r, g) := inspection_body q sid g in
  (except_ValueError_Exception (inspection_prefix q) r, g).

(** *** All seventeen operations *)

Inductive tool_call :=
| CreateIPythonSession (sid : option string) (auto_import : bool)
| ListIPythonSessions
| DeleteIPythonSession (sid : string)
| ExecuteCode (code sid : string) (capture_output expression_only : bool)
| GetExecutionHistory (sid : string) (limit : Z) (include_output : bool)
| LoadCsvFile (file_path sid : string) (variable_name : option string) (encoding : string)
| LoadExcelFile (file_path sid : string) (variable_name : option string) (sheet_name : sheet)
| LoadJsonFile (file_path sid : string) (variable_name : option string)
| ClearVariables (sid : string) (variable_names : option (list string))
    (clear_all keep_imports : bool)
| Inspect (q : inspection) (sid : string).


(** The tool as the caller sees it. *)
Definition run_tool (rd : Readings) (c : tool_call) (g : Globals) : body_result :=
  match c with
  | CreateIPythonSession sid ai => create_ipython_session rd sid ai g
  | ListIPythonSessions => list_ipython_sessions g
  | DeleteIPythonSession sid => delete_ipython_session sid g
  | ExecuteCode code sid co eo => execute_code rd code sid co eo g
  | GetExecutionHistory sid limit io => get_execution_history sid limit io g
  | LoadCsvFile fp sid vn enc => load_csv_file rd fp sid vn enc g
  | LoadExcelFile fp sid vn sn => load_excel_file rd fp sid vn sn g
  | LoadJsonFile fp sid vn => load_json_file rd fp sid vn g
  | ClearVariables sid vns ca ki => clear_variables rd sid vns ca ki g
  | Inspect q sid => inspection_tool q sid g
  end.

End Model.

(** * Vocabulary of the properties *)

Section Vocabulary.
Context {U : Universe} {RT : @Runtime U}.

(** One call of an execution method: which one, what it reads from
    outside, and the submitted code. *)
Inductive call :=
| Call (expression_only : bool) (rd : Readings) (code : string).

Definition run_call (c : call) (s : IPythonSession)
    : result ExecutionResult * IPythonSession :=
  match c with
  | Call true rd code => execute_expression_only rd code s
  | Call false rd code => execute rd code s
  end.

Fixpoint run_calls (cs : list call) (s : IPythonSession) : IPythonSession :=
  match cs with
  | [] => s
  | c :: cs => run_calls cs (snd (run_call c s))
  end.

(** The cell of the call ran to its end and its value was formatted: the
    call did not end in the method's own exception handler. *)
Definition completed (c : call) (s : IPythonSession) : bool :=
  match c with
  | Call expression_only rd code =>
      let run := run_cell code true (set_colors "NoColor" (shell s)) in
      match cell_result run with
      | Ok r =>
          let fmt := if expression_only then _format_result_direct else _format_result in
          match fmt (set_colors (colors (shell s)) (cell_shell run)) (rc_result r) with
          | Ok _ => true
          | Raise _ => false
          end
      | Raise _ => false
      end
  end.



End Vocabulary.

(** ** A small runtime to run the definitions on

    Objects are texts, floats are integers, the kernel has no state of
    its own.  The shell knows three cells: one prints, one divides by
    zero, one assigns; a value is formatted as itself.  Four files
    exist; [bad.csv] does not parse, and [book.dat] is read only when an
    engine is named. *)

Definition toyU : Universe :=
  {| pyobj := string; pyfloat := Z; kernel := unit |}.

Definition toy_float (z : Z) : @pyfloat toyU := z.
Definition toy_obj (s : string) : @pyobj toyU := s.
Definition toy_kernel : @kernel toyU := ().

Definition zero_division : exn :=
  {| exn_class := OtherException; exn_str := "division by zero";
     exn_bool := true; exn_traceback := "ZeroDivisionError: division by zero" |}.

Definition toy_run_cell (code : string) (store_history : bool)
    (sh : @Shell toyU) : @CellRun toyU :=
  let quiet r := {| cell_shell := sh; cell_stdout := ""; cell_stderr := "";
                    cell_result := Ok r |} in
  let none := {| rc_result := None; error_before_exec := None;
                 error_in_exec := None |} in
  if bool_decide (code = "print('hi')") then
    {| cell_shell := sh; cell_stdout := "hi" +:+ nl; cell_stderr := "";
       cell_result := Ok none |}
  else if bool_decide (code = "1/0") then
    {| cell_shell := sh;
       cell_stdout := String ESC "[31mZeroDivisionError" +:+ String ESC "[0m";
       cell_stderr := "";
       cell_result := Ok {| rc_result := None; error_before_exec := None;
                            error_in_exec := Some zero_division |} |}
  else if bool_decide (code = "x = 1") then
    {| cell_shell := set_user_ns (<["x" := toy_obj "1"]> (user_ns sh)) sh;
       cell_stdout := ""; cell_stderr := ""; cell_result := Ok none |}
  else quiet none.

Definition toy_files : list string :=
  ["data.csv"; "bad.csv"; "book.dat"; "data.json"].

Definition toy_stem (file_path : string) : string :=
  if bool_decide (file_path = "data.csv") then "data"
  else if bool_decide (file_path = "bad.csv") then "bad"
  else if bool_decide (file_path = "book.dat") then "book"
  else if bool_decide (file_path = "data.json") then "data"
  else file_path.

Definition toy_suffix (file_path : string) : string :=
  if bool_decide (file_path = "book.dat") then ".dat"
  else if bool_decide (file_path = "data.json") then ".json"
  else ".csv".

Definition parse_error : exn :=
  mk_exn ValueError "Error tokenizing data".

Definition no_engine : exn :=
  mk_exn OtherException "Excel file format cannot be determined".

Definition toy_runtime (pandas : bool) : @Runtime toyU :=
  {| IPYTHON_AVAILABLE := true;
     PANDAS_AVAILABLE := pandas;
     PSUTIL_AVAILABLE := true;
     EXCEL_XLSX_AVAILABLE := true;
     EXCEL_XLS_AVAILABLE := false;
     fzero := toy_float 0;
     fsub := λ x y, toy_float (x - y);
     fround := λ x _, x;
     InteractiveShell := Ok {| colors := "Linux"; user_ns := ∅; shell_kernel := toy_kernel |};
     quiet_plain_formatter := λ sh, Ok sh;
     disable_gui := λ sh, sh;
     run_cell := toy_run_cell;
     display_format := λ _ (o : @pyobj toyU), Ok (Some (o : string));
     plain_format := λ _ (o : @pyobj toyU), Ok (Some (o : string));
     has_to_string := λ _, false;
     to_string := λ o : @pyobj toyU, Ok (o : string);
     has_array := λ _, false;
     py_str := λ o : @pyobj toyU, Ok (o : string);
     var_info := λ _, [("type", VStr "str")];
     frame_info := λ _, Ok (VList [], VList [], VDict [], toy_float 0);
     is_module := λ _, false;
     path_exists := λ file_path, bool_decide (file_path ∈ toy_files);
     path_stem := toy_stem;
     path_suffix_lower := toy_suffix;
     open_read := λ _ _, Ok ();
     read_csv := λ file_path _,
       if bool_decide (file_path = "bad.csv") then Raise parse_error
       else Ok (toy_obj ("frame of " +:+ file_path));
     read_excel := λ file_path _ engine,
       match engine with
       | None => Raise no_engine
       | Some _ => Ok (toy_obj ("frame of " +:+ file_path))
       end;
     read_json := λ file_path, Ok (toy_obj ("frame of " +:+ file_path));
     run_inspection := λ _ _, Ok ∅;
     session_summary := λ sid _, Ok (VStr sid) |}.

Definition toy_readings : @Readings toyU :=
  {| uuid_hex8 := "0a1b2c3d";
     now_iso := "2024-01-01T00:00:00";
     now_iso' := "2024-01-01T00:00:01";
     time_start := toy_float 10;
     time_end := toy_float 12;
     rss_start := Ok (toy_float 100);
     rss_end := Ok (toy_float 101) |}.

(** The module state after [create_ipython_session("s1")]. *)
Definition toy_globals (pandas : bool) : @Globals toyU :=
  snd (create_ipython_session (RT := toy_runtime pandas) toy_readings (Some "s1") true None).

(** The session ["s1"] of [toy_globals]. *)
Definition toy_session : @IPythonSession toyU :=
  {| session_id := "s1"; created_at := "2024-01-01T00:00:00";
     last_used := "2024-01-01T00:00:01"; execution_count := 0; history := [];
     shell := {| colors := "NoColor"; user_ns := ∅; shell_kernel := toy_kernel |} |}.

(** Three calls on the session ["s1"]: a print, a division by zero in
    expression mode, an assignment. *)
Definition toy_calls : list (@call toyU) :=
  [Call false toy_readings "print('hi')";
   Call true toy_readings "1/0";
   Call false toy_readings "x = 1"].

(** The text [ESC ESC [ 0 m A]: the first [ESC] begins no match, the
    second begins [ESC [ 0 m]. *)
Definition esc_pair : string := String ESC (String ESC "[0mA").

(** * Further vocabulary *)

(** ** Texts with colour *)

(** [t] is [s] with some characters taken out. *)
Inductive subseq : string → string → Prop :=
| subseq_nil : subseq "" ""
| subseq_keep c t s : subseq t s → subseq (String c t) (String c s)
| subseq_drop c t s : subseq t s → subseq t (String c s).

(** A text cut into plain stretches and escape sequences. *)
Inductive piece :=
| Plain (t : string)
| Seq (m : string).

Fixpoint render (ps : list piece) : string :=
  match ps with
  | [] => ""
  | Plain t :: ps => t +:+ render ps
  | Seq m :: ps => m +:+ render ps
  end.

Fixpoint plain_text (ps : list piece) : string :=
  match ps with
  | [] => ""
  | Plain t :: ps => t +:+ plain_text ps
  | Seq _ :: ps => plain_text ps
  end.

(** A plain stretch has no [ESC]; a sequence is a text of the pattern. *)
Definition piece_ok (p : piece) : Prop :=
  match p with
  | Plain t => has_char ESC t = false
  | Seq m => ansi_seq m
  end.


(** ** Counting executions *)

Section SessionVocabulary.
Context {U : Universe} {RT : @Runtime U}.

(** The cell of the call returned; its value may still fail to format. *)
Definition cell_returned (c : call) (s : IPythonSession) : bool :=
  match c with
  | Call _ rd code =>
      match cell_result (run_cell code true (set_colors "NoColor" (shell s))) with
      | Ok _ => true
      | Raise _ => false
      end
  end.

(** How many of the calls [cs], made one after the other from [s], had
    their cell return. *)
Fixpoint returned_cells (cs : list call) (s : IPythonSession) : Z :=
  match cs with
  | [] => 0
  | c :: cs =>
      (if cell_returned c s then 1 else 0) + returned_cells cs (snd (run_call c s))
  end.

(** The counts in the history go up strictly and none is above the
    counter of the session. *)
Definition counts_increase (s : IPythonSession) : Prop :=
  StronglySorted Z.lt (h_execution_count <$> history s) ∧
  Forall (λ h, h_execution_count h ≤ execution_count s)%Z (history s).

End SessionVocabulary.


(** ** Operations on a named session *)

Section ToolVocabulary.
Context {U : Universe} {RT : @Runtime U}.

(** The session id an operation takes, if it takes one. *)
Definition session_of (c : tool_call) : option string :=
  match c with
  | CreateIPythonSession _ _ | ListIPythonSessions => None
  | DeleteIPythonSession sid
  | ExecuteCode _ sid _ _
  | GetExecutionHistory sid _ _
  | LoadCsvFile _ sid _ _
  | LoadExcelFile _ sid _ _
  | LoadJsonFile _ sid _
  | ClearVariables sid _ _ _
  | Inspect _ sid => Some sid
  end.

(** The availability tests an operation makes before it looks the
    session up. *)
Definition guards_pass (c : tool_call) : bool :=
  match c with
  | LoadCsvFile _ _ _ _ | LoadJsonFile _ _ _ => PANDAS_AVAILABLE
  | LoadExcelFile _ _ _ _ => PANDAS_AVAILABLE && EXCEL_AVAILABLE
  | _ => true
  end.

(** A session with another namespace and nothing else changed. *)
Definition with_namespace (ns : gmap string pyobj) (s : IPythonSession)
    : IPythonSession :=
  set_shell (set_user_ns ns (shell s)) s.

End ToolVocabulary.


(** ** Parts of the read-only tools

    The loops of the read-only tools that are the repository's own
    arithmetic: the count by kind of [get_session_status], the split of a
    mixed sample and the cut of a long text in [sample_column_data] and
    [get_variable_info].  A column is the list of its values; a text is
    the list of its characters, so that its length is the one [len]
    gives. *)

(** [sub in s] *)
Fixpoint starts_with (p s : string) : bool :=
  match p, s with
  | EmptyString, _ => true
  | String a p, String b s => bool_decide (a = b) && starts_with p s
  | String _ _, EmptyString => false
  end.

Fixpoint contains (sub s : string) : bool :=
  starts_with sub s ||
  match s with
  | String _ r => contains sub r
  | EmptyString => false
  end.

(** [s.lower()] on a type name, which is an identifier: the letters [A]
    to [Z] go to [a] to [z]. *)
Definition lower_char (c : ascii) : ascii :=
  if in_range 65 90 c then ascii_of_N (code c + 32) else c.

Fixpoint lower (s : string) : string :=
  match s with
  | String c r => String (lower_char c) (lower r)
  | EmptyString => EmptyString
  end.

Section Summary.
Context {U : Universe}.

(** [var_info.get('type', 'unknown')] *)
Fixpoint type_name (info : list (string * pyval)) : string :=
  match info with
  | [] => "unknown"
  | (k, v) :: rest =>
      if bool_decide (k = "type") then
        match v with
        | VStr t => t
        | _ => "unknown"
        end
      else type_name rest
  end.

Inductive kind :=
| Dataframes
| Lists
| Scalars
| Functions
| Others.

Global Instance kind_eq_dec : EqDecision kind.
Proof. solve_decision. Defined.

(** The [if]/[elif] chain on the type name. *)
Definition kind_of (var_type : string) : kind :=
  if contains "DataFrame" var_type then Dataframes
  else if bool_decide (var_type ∈ ["list"; "tuple"; "set"]) then Lists
  else if bool_decide (var_type ∈ ["int"; "float"; "str"; "bool"]) then Scalars
  else if contains "function" (lower var_type) then Functions
  else Others.

(** The dictionary [variable_summary], a counter for each kind. *)
Definition variable_summary_init : kind → Z := λ _, 0%Z.

Definition count_one (k : kind) (summary : kind → Z) : kind → Z :=
  λ k', if decide (k' = k) then (summary k' + 1)%Z else summary k'.

(** [for var_info in variables.values(): ...]; the order in which the
    values are met does not matter to the counters. *)
Definition variable_summary (variables : gmap string (list (string * pyval)))
    : kind → Z :=
  foldr (λ kv summary, count_one (kind_of (type_name kv.2)) summary)
    variable_summary_init (map_to_list variables).

End Summary.

(** *** Sampling a column *)

Section SamplingModel.
Context {A : Type}.

(** [s.sample(n=n)]: [n] values of [s] drawn at random. *)
Variable pick : nat → list A → list A.

(** [third], [remainder] and the three sizes of the mixed method. *)
Definition mixed_sizes (actual_sample_size : Z) : Z * Z * Z :=
  let third := (actual_sample_size / 3)%Z in
  let remainder := (actual_sample_size mod 3)%Z in
  let head_size := (third + if (0 <? remainder)%Z then 1 else 0)%Z in
  let tail_size := (third + if (1 <? remainder)%Z then 1 else 0)%Z in
  let random_size := third in
  (head_size, tail_size, random_size).

(** The branch [method == "mixed"], up to [pd.Series(samples)].  The
    sizes are used as counts only under the tests that make them
    positive. *)
Definition mixed_sample (sample_size : Z) (column_data : list A) : list A :=
  let total_count := Z.of_nat (length column_data) in
  let actual_sample_size := (sample_size `min` total_count)%Z in
  let '(head_size, tail_size, random_size) := mixed_sizes actual_sample_size in
  let samples := [] in
  let samples :=
    if (0 <? head_size)%Z then samples ++ take (Z.to_nat head_size) column_data
    else samples in
  let samples :=
    if (0 <? tail_size)%Z then samples ++ lastn (Z.to_nat tail_size) column_data
    else samples in
  if (0 <? random_size)%Z && (head_size + tail_size <? total_count)%Z then
    let middle_data :=
      if (0 <? tail_size)%Z then
        drop (Z.to_nat head_size)
          (take (length column_data - Z.to_nat tail_size) column_data)
      else drop (Z.to_nat head_size) column_data in
    if 0 <? length middle_data then
      samples ++ pick (Z.to_nat (random_size `min` Z.of_nat (length middle_data))%Z)
                   middle_data
    else samples
  else samples.

End SamplingModel.

(** *** Cutting a long text *)

Section Truncation.
Context {A : Type}.

(** [s[:n]], for [n] of either sign. *)
Definition py_prefix (n : Z) (s : list A) : list A :=
  if (0 <=? n)%Z then take (Z.to_nat n) s
  else take (length s - Z.to_nat (- n)) s.

(** [s[:limit] + "..." if len(s) > limit else s]; [dots] is the text
    ["..."]. *)
Definition truncate_text (dots : list A) (limit : Z) (s : list A) : list A :=
  if (limit <? Z.of_nat (length s))%Z then py_prefix limit s ++ dots else s.

End Truncation.


(** ** A runtime that names every file a workbook

    [toy_runtime] with the extension of every path read as [.xlsx]. *)
Definition xlsx_runtime : @Runtime toyU :=
  let RT := toy_runtime true in
  {| IPYTHON_AVAILABLE := IPYTHON_AVAILABLE (Runtime := RT);
     PANDAS_AVAILABLE := PANDAS_AVAILABLE (Runtime := RT);
     PSUTIL_AVAILABLE := PSUTIL_AVAILABLE (Runtime := RT);
     EXCEL_XLSX_AVAILABLE := EXCEL_XLSX_AVAILABLE (Runtime := RT);
     EXCEL_XLS_AVAILABLE := EXCEL_XLS_AVAILABLE (Runtime := RT);
     fzero := fzero (Runtime := RT);
     fsub := fsub (Runtime := RT);
     fround := fround (Runtime := RT);
     InteractiveShell := InteractiveShell (Runtime := RT);
     quiet_plain_formatter := quiet_plain_formatter (Runtime := RT);
     disable_gui := disable_gui (Runtime := RT);
     run_cell := run_cell (Runtime := RT);
     display_format := display_format (Runtime := RT);
     plain_format := plain_format (Runtime := RT);
     has_to_string := has_to_string (Runtime := RT);
     to_string := to_string (Runtime := RT);
     has_array := has_array (Runtime := RT);
     py_str := py_str (Runtime := RT);
     var_info := var_info (Runtime := RT);
     frame_info := frame_info (Runtime := RT);
     is_module := is_module (Runtime := RT);
     path_exists := path_exists (Runtime := RT);
     path_stem := path_stem (Runtime := RT);
     path_suffix_lower := λ _, ".xlsx";
     open_read := open_read (Runtime := RT);
     read_csv := read_csv (Runtime := RT);
     read_excel := read_excel (Runtime := RT);
     read_json := read_json (Runtime := RT);
     run_inspection := run_inspection (Runtime := RT);
     session_summary := session_summary (Runtime := RT) |}.

(** * Properties *)

(** ** ANSI stripping *)

Lemma skip_while_length p s : String.length (skip_while p s) ≤ String.length s.
Proof.
  induction s as [|c r IH]; simpl; [lia|].
  destruct (p c); simpl; lia.
Qed.

Lemma ansi_group_length s r : ansi_group s = Some r → String.length r < String.length s.
Proof.
  destruct s as [|c s]; simpl; [done|].
  destruct (is_fe c); [intros [= ->]; lia|].
  case_bool_decide; [|done].
  pose proof (skip_while_length is_param s) as H1.
  pose proof (skip_while_length is_inter (skip_while is_param s)) as H2.
  destruct (skip_while is_inter _) as [|f r']; [done|].
  destruct (is_final f); [|done].
  intros [= ->]. simpl in *. lia.
Qed.

Lemma ansi_match_length s r : ansi_match s = Some r → String.length r < String.length s.
Proof.
  destruct s as [|c s]; simpl; [done|].
  case_bool_decide; [|done].
  intros Hg%ansi_group_length. lia.
Qed.

Lemma ansi_sub_cons c r :
  ansi_sub (String c r) =
  match ansi_match (String c r) with
  | Some r' => ansi_sub r'
  | None => String c (ansi_sub r)
  end.
Proof.
  simp ansi_sub.
  destruct (inspect (ansi_match (String c r))) as [[r'|] e];
    simp ansi_sub; by rewrite e.
Qed.

Lemma remove_ansi_codes_sub text : remove_ansi_codes text = ansi_sub text.
Proof.
  unfold remove_ansi_codes. case_bool_decide as E; [|done].
  by rewrite E.
Qed.

Lemma suffix_of_inv t c s :
  suffix_of t (String c s) → t = String c s ∨ suffix_of t s.
Proof. inversion 1; auto. Qed.

Lemma suffix_of_trans t s u : suffix_of t s → suffix_of s u → suffix_of t u.
Proof. intros Hts Hsu. induction Hsu; [done|]. by constructor. Qed.

Lemma suffix_of_length t s : suffix_of t s → String.length t ≤ String.length s.
Proof. induction 1; simpl; lia. Qed.

Lemma skip_while_suffix p s : suffix_of (skip_while p s) s.
Proof.
  induction s as [|c r IH]; simpl; [constructor|].
  destruct (p c); [by constructor | constructor].
Qed.

Lemma ansi_group_suffix s r : ansi_group s = Some r → suffix_of r s.
Proof.
  destruct s as [|c s]; simpl; [done|].
  destruct (is_fe c); [intros [= ->]; do 2 constructor|].
  case_bool_decide; [|done].
  pose proof (skip_while_suffix is_param s) as H1.
  pose proof (skip_while_suffix is_inter (skip_while is_param s)) as H2.
  destruct (skip_while is_inter _) as [|f r']; [done|].
  destruct (is_final f); [|done].
  intros [= ->]. constructor.
  eapply suffix_of_trans; [|exact H1].
  eapply suffix_of_trans; [|exact H2].
  do 2 constructor.
Qed.

Lemma ansi_match_suffix s r : ansi_match s = Some r → suffix_of r s.
Proof.
  destruct s as [|c s]; simpl; [done|].
  case_bool_decide; [|done].
  intros Hg%ansi_group_suffix. by constructor.
Qed.

Lemma ansi_match_starts_with_esc s :
  is_Some (ansi_match s) → ∃ t, s = String ESC t.
Proof.
  destruct s as [|c s]; simpl; [by intros [? ?]|].
  case_bool_decide as E; [|by intros [? ?]].
  subst c. eauto.
Qed.

Lemma has_char_suffix a t s : suffix_of t s → has_char a t = true → has_char a s = true.
Proof.
  induction 1 as [|c s _ IH]; [done|].
  intros Ht. simpl. rewrite (IH Ht). apply orb_true_r.
Qed.

(** Without [ESC] there is nothing to match. *)
Lemma no_esc_no_match s : has_char ESC s = false → ¬ has_ansi_match s.
Proof.
  intros Hesc (t & Hsuf & Hm).
  apply ansi_match_starts_with_esc in Hm as [u ->].
  assert (has_char ESC s = true) as Hin; [|congruence].
  eapply has_char_suffix; [exact Hsuf|].
  done.
Qed.

(** A text without a match is left as it is. *)
Lemma ansi_sub_no_match s : ¬ has_ansi_match s → ansi_sub s = s.
Proof.
  induction s as [|c r IH]; intros Hno; [by simp ansi_sub|].
  rewrite ansi_sub_cons.
  destruct (ansi_match (String c r)) as [r'|] eqn:E.
  - destruct Hno. exists (String c r). split; [constructor | by rewrite E].
  - f_equal. apply IH. intros (t & Hsuf & Hm).
    apply Hno. exists t. split; [by constructor | done].
Qed.

Lemma ansi_sub_length s : String.length (ansi_sub s) ≤ String.length s.
Proof.
  remember (String.length s) as n eqn:Hn.
  revert s Hn. induction (lt_wf n) as [n _ IH]. intros s ->.
  destruct s as [|c r]; [by simp ansi_sub|].
  rewrite ansi_sub_cons.
  destruct (ansi_match (String c r)) as [r'|] eqn:E.
  - apply ansi_match_length in E.
    specialize (IH _ E r' eq_refl). lia.
  - simpl. specialize (IH (String.length r) ltac:(simpl; lia) r eq_refl). lia.
Qed.

(** A text with a match gets shorter, so the texts [ansi_sub] leaves
    alone are exactly the texts without a match. *)
Lemma ansi_sub_match_shorter s :
  has_ansi_match s → String.length (ansi_sub s) < String.length s.
Proof.
  intros (t & Hsuf & Hm).
  induction Hsuf as [|c s Hsuf IH].
  - destruct t as [|c r]; [by destruct Hm|].
    rewrite ansi_sub_cons. destruct Hm as [r' E]. rewrite E.
    apply ansi_match_length in E.
    pose proof (ansi_sub_length r'). lia.
  - rewrite ansi_sub_cons.
    destruct (ansi_match (String c s)) as [r'|] eqn:E.
    + apply ansi_match_length in E.
      pose proof (ansi_sub_length r'). lia.
    + simpl. lia.
Qed.

Lemma ansi_sub_fixed_iff s : ansi_sub s = s ↔ ¬ has_ansi_match s.
Proof.
  split; [|apply ansi_sub_no_match].
  intros Heq Hm. apply ansi_sub_match_shorter in Hm. rewrite Heq in Hm. lia.
Qed.

(** *** [ansi_match] finds exactly the texts of the pattern *)

Lemma classes_disjoint c :
  (is_final c = true → is_param c = false ∧ is_inter c = false) ∧
  (is_inter c = true → is_param c = false) ∧
  (is_fe c = true → c ≠ "["%char).
Proof. destruct c as [[] [] [] [] [] [] [] []]; by vm_compute. Qed.

Lemma take_skip_while p s : s = take_while p s +:+ skip_while p s.
Proof.
  induction s as [|c r IH]; simpl; [done|].
  destruct (p c); [|done].
  change (String c r = String c (take_while p r +:+ skip_while p r)).
  by f_equal.
Qed.

Lemma all_chars_take_while p s : all_chars p (take_while p s) = true.
Proof.
  induction s as [|c r IH]; simpl; [done|].
  destruct (p c) eqn:E; simpl; [by rewrite E | done].
Qed.

Lemma skip_while_app p s c r :
  all_chars p s = true → p c = false →
  skip_while p (s +:+ String c r) = String c r.
Proof.
  intros Hs Hc. induction s as [|a s IH]; simpl in *; [by rewrite Hc|].
  apply andb_true_iff in Hs as [-> Hs]. auto.
Qed.

Lemma string_app_cons c (s t : string) : String c s +:+ t = String c (s +:+ t).
Proof. reflexivity. Qed.

Lemma string_app_assoc (a b c : string) : (a +:+ b) +:+ c = a +:+ b +:+ c.
Proof.
  induction a as [|x a IH]; [done|].
  rewrite !string_app_cons. by f_equal.
Qed.

Lemma ansi_match_sound s r :
  ansi_match s = Some r → ∃ m, ansi_seq m ∧ s = m +:+ r.
Proof.
  destruct s as [|c s]; simpl; [done|].
  case_bool_decide as Hc; [subst c|done].
  destruct s as [|d s]; simpl; [done|].
  destruct (is_fe d) eqn:Hfe.
  { intros [= ->]. exists (String ESC (String d "")). split; [by constructor | done]. }
  case_bool_decide as Hd; [subst d|done].
  pose proof (take_skip_while is_param s) as H1.
  pose proof (take_skip_while is_inter (skip_while is_param s)) as H2.
  destruct (skip_while is_inter (skip_while is_param s)) as [|f t] eqn:E; [done|].
  destruct (is_final f) eqn:Hf; [|done].
  intros [= ->].
  exists (String ESC (String "["%char
            (take_while is_param s
             +:+ take_while is_inter (skip_while is_param s) +:+ String f ""))).
  split; [constructor; auto using all_chars_take_while|].
  rewrite !string_app_cons. do 2 f_equal.
  rewrite H1 at 1. rewrite H2 at 1.
  by rewrite !string_app_assoc, string_app_cons.
Qed.

Lemma ansi_match_complete m r : ansi_seq m → ansi_match (m +:+ r) = Some r.
Proof.
  intros [c Hfe | ps ins f Hps Hins Hf]; rewrite !string_app_cons; simpl.
  - by rewrite Hfe.
  - destruct (classes_disjoint f) as (Hd & _ & Hb).
    destruct (Hd Hf) as [Hfp Hfi].
    rewrite !string_app_assoc, string_app_cons.
    change ("" +:+ r) with r.
    assert (skip_while is_inter (skip_while is_param (ps +:+ ins +:+ String f r))
            = String f r) as ->; [|by rewrite Hf].
    destruct ins as [|i ins]; simpl in Hins.
    + change ("" +:+ String f r) with (String f r).
      rewrite (skip_while_app is_param ps f r Hps Hfp). simpl. by rewrite Hfi.
    + apply andb_true_iff in Hins as [Hi Hins].
      destruct (classes_disjoint i) as (_ & Hip & _).
      rewrite string_app_cons.
      rewrite (skip_while_app is_param ps i _ Hps (Hip Hi)). simpl. rewrite Hi.
      by apply skip_while_app.
Qed.

(** The match at a place, when there is one, is the only text of the
    pattern that starts there, so greedy runs, the order of the
    alternatives and backtracking make no difference. *)
Lemma ansi_match_iff s r :
  ansi_match s = Some r ↔ ∃ m, ansi_seq m ∧ s = m +:+ r.
Proof.
  split; [apply ansi_match_sound|].
  intros (m & Hm & ->). by apply ansi_match_complete.
Qed.

Lemma esc_all_matched_suffix t s :
  suffix_of t s → esc_all_matched s → esc_all_matched t.
Proof.
  intros Hts Hs u Hu. apply Hs. by eapply suffix_of_trans.
Qed.

(** When every [ESC] begins a match, one pass leaves no [ESC]. *)
Lemma ansi_sub_no_esc s : esc_all_matched s → has_char ESC (ansi_sub s) = false.
Proof.
  remember (String.length s) as n eqn:Hn.
  revert s Hn. induction (lt_wf n) as [n _ IH]. intros s -> Hall.
  destruct s as [|c r]; [by simp ansi_sub|].
  rewrite ansi_sub_cons.
  destruct (ansi_match (String c r)) as [r'|] eqn:E.
  - eapply (IH _ (ansi_match_length _ _ E)); [done|].
    eapply esc_all_matched_suffix; [|exact Hall].
    by apply ansi_match_suffix.
  - simpl. rewrite (IH (String.length r) ltac:(simpl; lia) r eq_refl).
    + rewrite orb_false_r. apply bool_decide_eq_false_2. intros ->.
      destruct (Hall r) as [? Hm]; [constructor|]. congruence.
    + eapply esc_all_matched_suffix; [|exact Hall]. do 2 constructor.
Qed.

Example ansi_sub_colour :
  remove_ansi_codes (String ESC "[31mred" +:+ String ESC "[0m") = "red".
Proof. reflexivity. Qed.

(** C7, as amended.  Stripping is one left-to-right pass.  For a text in
    which every [ESC] begins a sequence the pattern matches (a text
    without [ESC] among them), the output has no [ESC], hence no match,
    and stripping it again changes nothing.  For any text, stripping
    twice gives the same as stripping once exactly when the first output
    has no match. *)
Theorem remove_ansi_codes_idempotent_on_matched (s : string) :
  (esc_all_matched s →
     has_char ESC (remove_ansi_codes s) = false ∧
     ¬ has_ansi_match (remove_ansi_codes s) ∧
     remove_ansi_codes (remove_ansi_codes s) = remove_ansi_codes s) ∧
  (remove_ansi_codes (remove_ansi_codes s) = remove_ansi_codes s ↔
     ¬ has_ansi_match (remove_ansi_codes s)).
Proof.
  split.
  - intros Hall. rewrite !remove_ansi_codes_sub.
    pose proof (ansi_sub_no_esc s Hall) as Hesc.
    pose proof (no_esc_no_match _ Hesc) as Hno.
    by rewrite (ansi_sub_no_match _ Hno).
  - rewrite !remove_ansi_codes_sub. apply ansi_sub_fixed_iff.
Qed.

Lemma esc_all_matched_colour :
  esc_all_matched (String ESC "[31mred" +:+ String ESC "[0m").
Proof.
  intros t Hsuf. cbn in Hsuf.
  repeat (apply suffix_of_inv in Hsuf as [Heq | Hsuf];
          [first [discriminate Heq | injection Heq as ->; vm_compute; eauto] |]).
  inversion Hsuf.
Qed.

Lemma remove_ansi_codes_idempotent_on_matched_witness :
  let s := String ESC "[31mred" +:+ String ESC "[0m" in
  esc_all_matched s ∧
  has_char ESC (remove_ansi_codes s) = false ∧
  ¬ has_ansi_match (remove_ansi_codes s) ∧
  remove_ansi_codes (remove_ansi_codes s) = remove_ansi_codes s.
Proof.
  split; [exact esc_all_matched_colour|].
  exact (proj1 (remove_ansi_codes_idempotent_on_matched _) esc_all_matched_colour).
Defined.

(** C7 as stated fails: the output for [ESC ESC [ 0 m A] is [ESC A],
    which the pattern matches, and a second pass gives the empty text. *)
Lemma remove_ansi_codes_not_idempotent :
  remove_ansi_codes esc_pair = String ESC "A" ∧
  has_ansi_match (remove_ansi_codes esc_pair) ∧
  remove_ansi_codes (remove_ansi_codes esc_pair) = "" ∧
  remove_ansi_codes (remove_ansi_codes esc_pair) ≠ remove_ansi_codes esc_pair.
Proof.
  split; [reflexivity|]. split; [|split; [reflexivity | discriminate]].
  exists (String ESC "A"). split; [constructor | vm_compute; eauto].
Qed.

(** ** Lists *)

Lemma lastn_all {A} n (l : list A) : length l ≤ n → lastn n l = l.
Proof. intros H. unfold lastn. by replace (length l - n) with 0 by lia. Qed.

Lemma length_lastn {A} n (l : list A) : length (lastn n l) = n `min` length l.
Proof. unfold lastn. rewrite length_drop. lia. Qed.


(** ** The session *)

Section Session.
Context {U : Universe} {RT : @Runtime U}.

Lemma record_history_lastn entry h :
  record_history entry h = lastn 100 (h ++ [entry]).
Proof.
  unfold record_history.
  destruct (100 <? length (h ++ [entry])) eqn:E; [done|].
  apply Nat.ltb_ge in E. by rewrite lastn_all.
Qed.

(** C9.  Whatever [execute] or [execute_expression_only] returns, on the
    normal path and on the path through its own exception handler,
    has [success] true exactly when [error] is [None]; and it does
    return, unless an exception outside [Exception] passes through. *)
Theorem execution_result_success_iff_no_error rd code self :
  match fst (execute rd code self) with
  | Ok r => success r = true ↔ error r = None
  | Raise e => is_Exception e = false
  end ∧
  match fst (execute_expression_only rd code self) with
  | Ok r => success r = true ↔ error r = None
  | Raise e => is_Exception e = false
  end.
Proof.
  split; unfold execute, execute_expression_only, execute_with, on_execution_error.
  all: destruct (cell_result _) as [er|e].
  all: try (destruct (is_Exception e) eqn:E; simpl; [split; done | done]).
  all: match goal with
       | |- context [_format_result_direct ?a ?b] =>
           destruct (_format_result_direct a b) as [f|e]
       | |- context [_format_result ?a ?b] =>
           destruct (_format_result a b) as [f|e]
       end.
  all: try (destruct (is_Exception e) eqn:E; simpl; [split; done | done]).
  all: simpl; destruct (error_in_exec er) as [e|]; simpl; [|done].
  all: destruct (exn_bool e); simpl; split; done.
Qed.




(** A session just built has an empty history. *)
Lemma IPythonSession_init_history rd sid auto_import s :
  IPythonSession_init rd sid auto_import = Ok s → history s = [].
Proof.
  unfold IPythonSession_init.
  destruct (negb IPYTHON_AVAILABLE); [done|].
  destruct InteractiveShell as [sh|e]; simpl; [|done].
  destruct auto_import.
  - destruct (_auto_import_libraries _) as [[l|e] sh']; simpl; [|done].
    by intros [= <-].
  - by intros [= <-].
Qed.

End Session.

Example toy_globals_session pandas :
  session_map (toy_globals pandas) = {[ "s1" := toy_session ]}.
Proof. destruct pandas; reflexivity. Qed.

(** ** The registry of sessions *)

Section Registry.
Context {U : Universe} {RT : @Runtime U}.

Lemma get_session_manager_sessions g :
  sessions (fst (get_session_manager g)) = session_map g.
Proof. by destruct g. Qed.

Lemma failure_success msg : failure msg !! "success" = Some (VBool false).
Proof. done. Qed.

Lemma failure_error msg : failure msg !! "error" = Some (VStr msg).
Proof. done. Qed.

(** What [create_session] does to the map. *)
Lemma create_session_spec rd sid auto_import m :
  match create_session rd sid auto_import m with
  | (Ok id, m') =>
      (id ∉ dom (sessions m)) ∧
      id = default ("session_" +:+ uuid_hex8 rd) sid ∧
      ∃ s, IPythonSession_init rd id auto_import = Ok s ∧
           sessions m' = <[id := s]> (sessions m)
  | (Raise e, m') => m' = m
  end.
Proof.
  unfold create_session.
  set (id := match sid with None => _ | Some s => s end).
  assert (id = default ("session_" +:+ uuid_hex8 rd) sid) as Hid.
  { by destruct sid. }
  destruct (decide (id ∈ dom (sessions m))) as [Hin|Hout]; [done|].
  destruct (IPythonSession_init rd id auto_import) as [s|e] eqn:E; [|done].
  eauto.
Qed.

(** C3.  When [create_ipython_session] reports success, the id it
    returns was not the id of any session before the call, and the call
    added exactly that session.  When it is given an id that is already
    in the map, it returns a failure and the module state is as before. *)
Theorem create_ipython_session_unique rd sid auto_import g :
  (∀ d, fst (create_ipython_session rd sid auto_import g) = Ok d →
        d !! "success" = Some (VBool true) →
        ∃ id s, d !! "session_id" = Some (VStr id) ∧
                (id ∉ dom (session_map g)) ∧
                session_map (snd (create_ipython_session rd sid auto_import g))
                = <[id := s]> (session_map g)) ∧
  (∀ id, sid = Some id → id ∈ dom (session_map g) →
         (∃ msg, fst (create_ipython_session rd sid auto_import g) = Ok (failure msg)) ∧
         snd (create_ipython_session rd sid auto_import g) = g).
Proof.
  unfold create_ipython_session, create_ipython_session_body.
  destruct (negb IPYTHON_AVAILABLE) eqn:Hipy; simpl.
  { split; [|by eauto]. intros d [= <-]. done. }
  assert (∀ id, id ∈ dom (session_map g) →
                Some (fst (get_session_manager g)) = g) as Hg.
  { intros id Hin. destruct g; [done | set_solver]. }
  pose proof (get_session_manager_sessions g) as Hm.
  destruct (get_session_manager g) as [m g0]. simpl in Hm, Hg.
  pose proof (create_session_spec rd sid auto_import m) as Hc.
  destruct (create_session rd sid auto_import m) as [[id|e] m'] eqn:Ec; simpl.
  - destruct Hc as (Hfresh & Hid & s & _ & Hs). rewrite Hm in *. split.
    + intros d [= <-] _. exists id, s. by rewrite Hs.
    + intros id' -> Hin. simpl in Hid. by subst id'.
  - subst m'. split.
    + unfold except_Exception, except_as. simpl.
      destruct (is_Exception e); [|done]. intros d [= <-]. done.
    + intros id -> Hin. unfold create_session in Ec.
      rewrite Hm in Ec. rewrite decide_True in Ec by done.
      injection Ec as <-. simpl. split; [eauto|]. by eapply Hg.
Qed.

(** C4.  Deleting an id that is not in the map returns the not-found
    failure and leaves the map as it is; deleting an id that is in the
    map returns success, after which that id is gone and every other
    session is as before. *)
Theorem delete_ipython_session_spec sid g :
  let r := fst (delete_ipython_session sid g) in
  let g' := snd (delete_ipython_session sid g) in
  (sid ∉ dom (session_map g) →
     r = Ok (failure ("Session " +:+ sid +:+ " not found")) ∧
     session_map g' = session_map g) ∧
  (sid ∈ dom (session_map g) →
     r = Ok {[ "success" := VBool true;
               "message" := VStr ("Session " +:+ sid +:+ " deleted successfully") ]} ∧
     session_map g' !! sid = None ∧
     (∀ other, other ≠ sid → session_map g' !! other = session_map g !! other)).
Proof.
  unfold delete_ipython_session, delete_ipython_session_body, delete_session.
  pose proof (get_session_manager_sessions g) as Hm.
  destruct (get_session_manager g) as [m g0]. simpl in Hm. rewrite <- Hm.
  destruct (decide (sid ∈ dom (sessions m))) as [Hin|Hout]; simpl.
  - split; [done|]. intros _. split; [done|]. split.
    + apply lookup_delete_eq.
    + intros other Hne. by apply lookup_delete_ne.
  - split; [done|]. done.
Qed.

End Registry.

Lemma create_ipython_session_unique_witness :
  (∃ id s,
     ({[ "success" := VBool true; "session_id" := VStr "session_0a1b2c3d";
         "message" := VStr "IPython session session_0a1b2c3d created successfully";
         "auto_imported" := VList (VStr <$> auto_imported_names) ]}
        : gmap string (@pyval toyU)) !! "session_id" = Some (VStr id) ∧
     (id ∉ dom (session_map (toy_globals true))) ∧
     session_map (snd (create_ipython_session (RT := toy_runtime true)
                         toy_readings None true (toy_globals true)))
     = <[id := s]> (session_map (toy_globals true))) ∧
  ((∃ msg, fst (create_ipython_session (RT := toy_runtime true)
                  toy_readings (Some "s1") true (toy_globals true))
           = Ok (failure msg)) ∧
   snd (create_ipython_session (RT := toy_runtime true)
          toy_readings (Some "s1") true (toy_globals true))
   = toy_globals true).
Proof.
  split.
  - apply (proj1 (create_ipython_session_unique (RT := toy_runtime true)
                    toy_readings None true (toy_globals true)));
      reflexivity.
  - apply (proj2 (create_ipython_session_unique (RT := toy_runtime true)
                    toy_readings (Some "s1") true (toy_globals true)) "s1");
      [reflexivity | vm_compute; set_solver].
Defined.

Lemma delete_ipython_session_spec_witness :
  (("nope" ∉ dom (session_map (toy_globals true))) ∧
   fst (delete_ipython_session "nope" (toy_globals true))
   = Ok (failure "Session nope not found") ∧
   session_map (snd (delete_ipython_session "nope" (toy_globals true)))
   = session_map (toy_globals true)) ∧
  ("s1" ∈ dom (session_map (toy_globals true)) ∧
   session_map (snd (delete_ipython_session "s1" (toy_globals true))) !! "s1" = None).
Proof.
  assert ("nope" ∉ dom (session_map (toy_globals true))) as Hout.
  { vm_compute. set_solver. }
  assert ("s1" ∈ dom (session_map (toy_globals true))) as Hin.
  { vm_compute. set_solver. }
  split.
  - split; [exact Hout|].
    exact (proj1 (delete_ipython_session_spec "nope" (toy_globals true)) Hout).
  - split; [exact Hin|].
    exact (proj1 (proj2 (proj2 (delete_ipython_session_spec "s1" (toy_globals true)) Hin))).
Defined.

Example toy_calls_history :
  h_code <$> history (run_calls (RT := toy_runtime true) toy_calls toy_session)
  = ["print('hi')"; "1/0"; "x = 1"].
Proof. reflexivity. Qed.


(** ** Loading files *)

Section Loading.
Context {U : Universe} {RT : @Runtime U}.

Lemma candidate_inj base_name : Inj (=) (=) (candidate base_name).
Proof.
  intros k k' Heq. unfold candidate in Heq.
  do 3 apply String.app_inj in Heq. by apply (inj pretty) in Heq.
Qed.

Lemma string_app_ne s t : t ≠ "" → s ≠ s +:+ t.
Proof.
  intros Ht Heq. induction s as [|c s IH]; simpl in Heq; [done|].
  injection Heq as Heq. auto.
Qed.

Lemma first_name_ne_candidate base_name k : "df_" +:+ base_name ≠ candidate base_name k.
Proof.
  unfold candidate. intros Heq. apply String.app_inj in Heq.
  by apply string_app_ne in Heq.
Qed.

(** The loop ends before its fuel does, on a name that is not a key. *)
Lemma name_loop_spec {V} (variables : gmap string V) base_name :
  ∀ fuel (X : gset string) variable_name counter,
    size X ≤ fuel →
    (∀ k, counter ≤ k → candidate base_name k ≠ variable_name) →
    (variable_name ∈ dom variables → variable_name ∈ X) →
    (∀ k, counter ≤ k → candidate base_name k ∈ dom variables →
          candidate base_name k ∈ X) →
    ∃ name, name_loop fuel variables base_name variable_name counter = Some name ∧
            (name ∉ dom variables) ∧
            (name = variable_name ∨ ∃ k, counter ≤ k ∧ name = candidate base_name k).
Proof.
  induction fuel as [|fuel IH]; intros X name counter Hsize Hne Hname Hcand; simpl.
  - destruct (decide (name ∈ dom variables)) as [Hin|Hout]; [|by eauto].
    apply Hname in Hin.
    assert (X ≡ ∅) as HX by (apply size_empty_inv; lia).
    set_solver.
  - destruct (decide (name ∈ dom variables)) as [Hin|Hout]; [|by eauto].
    destruct (IH (X ∖ {[name]}) (candidate base_name counter) (S counter))
      as (r & Hr & Hfree & Hshape).
    + apply Hname in Hin.
      assert (size (X ∖ {[name]}) < size X) as Hlt; [|lia].
      by apply subset_size, subset_difference_elem_of.
    + intros k Hk Heq. apply candidate_inj in Heq. lia.
    + intros Hc. apply elem_of_difference. split; [by apply Hcand|].
      rewrite elem_of_singleton. by apply Hne.
    + intros k Hk Hc. apply elem_of_difference. split; [apply Hcand; [lia|done]|].
      rewrite elem_of_singleton. apply Hne. lia.
    + exists r. split; [done|]. split; [done|]. right.
      destruct Hshape as [->|(k & Hk & ->)]; [by eauto|].
      exists k. split; [lia|done].
Qed.

Lemma name_loop_exits {V} (variables : gmap string V) base_name :
  ∃ name,
    name_loop (size variables) variables base_name ("df_" +:+ base_name) 1 = Some name ∧
    (name ∉ dom variables) ∧
    (name = "df_" +:+ base_name ∨ ∃ k, 1 ≤ k ∧ name = candidate base_name k).
Proof.
  apply (name_loop_spec variables base_name (size variables) (dom variables)).
  - by rewrite size_dom.
  - intros k _ Heq. symmetry in Heq. by apply first_name_ne_candidate in Heq.
  - done.
  - done.
Qed.

Lemma df_name_user_visible rest : user_visible ("df_" +:+ rest) = true.
Proof.
  unfold user_visible, reserved_names. simpl. done.
Qed.

Lemma get_variables_dom session name :
  user_visible name = true →
  name ∈ dom (get_variables session) ↔ name ∈ dom (user_ns (shell session)).
Proof.
  intros Hvis. unfold get_variables. rewrite dom_fmap, !elem_of_dom.
  split.
  - intros [o Ho]. apply map_lookup_filter_Some in Ho as [Ho _]. eauto.
  - intros [o Ho]. exists o. apply map_lookup_filter_Some. split; [done|].
    simpl. by rewrite Hvis.
Qed.

(** An automatic name is [df_<stem>] or [df_<stem>_<k>] and is bound to
    nothing in the namespace. *)
Lemma auto_variable_name_fresh session file_path :
  let name := auto_variable_name session file_path in
  (name ∉ dom (user_ns (shell session))) ∧
  (name = "df_" +:+ path_stem file_path ∨
   ∃ k, 1 ≤ k ∧ name = candidate (path_stem file_path) k).
Proof.
  unfold auto_variable_name.
  destruct (name_loop_exits (get_variables session) (path_stem file_path))
    as (name & -> & Hfree & Hshape). simpl.
  split; [|done].
  rewrite <- get_variables_dom; [done|].
  destruct Hshape as [->|(k & _ & ->)]; apply df_name_user_visible.
Qed.

Lemma get_session_found g sid session :
  session_map g !! sid = Some session →
  get_session_manager g = (default {| sessions := ∅ |} g, g) ∧
  g = Some (default {| sessions := ∅ |} g) ∧
  get_session sid (default {| sessions := ∅ |} g) = Ok session.
Proof.
  destruct g as [m|]; simpl; [|done].
  intros Hs. unfold get_session. by rewrite Hs.
Qed.

Lemma store_frame_state sid session manager file_path variable_name df lt extra :
  snd (store_frame sid session manager file_path variable_name df lt extra)
  = Some (put_session sid
            (bind_variable
               (default (auto_variable_name session file_path) variable_name)
               df session)
            manager).
Proof. unfold store_frame. by destruct variable_name. Qed.

(** C5, as amended.  Loading a path that does not exist into an existing
    session returns a failure from each of the three loaders and leaves
    the module state, the namespace of the session with it, as it was.
    The failure is [File not found: <path>] where pandas is available
    (and, for Excel, one of the two Excel libraries); elsewhere the
    availability guard answers first. *)
Theorem load_missing_file rd file_path sid variable_name g session :
  path_exists file_path = false →
  session_map g !! sid = Some session →
  (∀ encoding, ∃ msg,
     load_csv_file rd file_path sid variable_name encoding g = (Ok (failure msg), g) ∧
     (PANDAS_AVAILABLE = true → msg = "File not found: " +:+ file_path)) ∧
  (∀ sheet_name, ∃ msg,
     load_excel_file rd file_path sid variable_name sheet_name g
     = (Ok (failure msg), g) ∧
     (PANDAS_AVAILABLE = true → EXCEL_AVAILABLE = true →
      msg = "File not found: " +:+ file_path)) ∧
  (∃ msg,
     load_json_file rd file_path sid variable_name g = (Ok (failure msg), g) ∧
     (PANDAS_AVAILABLE = true → msg = "File not found: " +:+ file_path)).
Proof.
  intros Hmiss Hs.
  destruct (get_session_found g sid session Hs) as (Hm & Hg & Hget).
  split; [|split].
  - intros encoding.
    unfold load_csv_file, load_csv_file_body, load_csv.
    destruct PANDAS_AVAILABLE; simpl; [|by eexists; split; [reflexivity|]].
    rewrite Hmiss, Hm, Hget. simpl. rewrite <- Hg. by eexists; split; [reflexivity|].
  - intros sheet_name.
    unfold load_excel_file, load_excel_file_body, load_excel.
    destruct PANDAS_AVAILABLE; simpl; [|by eexists; split; [reflexivity|]].
    destruct EXCEL_AVAILABLE; simpl; [|by eexists; split; [reflexivity|]].
    rewrite Hmiss, Hm, Hget. simpl. rewrite <- Hg. by eexists; split; [reflexivity|].
  - unfold load_json_file, load_json_file_body, load_json.
    destruct PANDAS_AVAILABLE; simpl; [|by eexists; split; [reflexivity|]].
    rewrite Hmiss, Hm, Hget. simpl. rewrite <- Hg. by eexists; split; [reflexivity|].
Qed.

(** C10, as amended.  Let a loader be called without a variable name on
    an existing session.  The name it would choose, [df_<stem>] or
    [df_<stem>_<k>], is bound to nothing in the namespace of the
    session.  When the file is read into a frame, the session afterwards
    is the one it was with that one name bound to the frame, every other
    binding and every other session as before; when the reader raises
    (the file exists or not), nothing is bound. *)
Theorem auto_name_binds_one_new_variable rd file_path sid g session :
  session_map g !! sid = Some session →
  let name := auto_variable_name session file_path in
  let bound df g' :=
    session_map g' = <[sid := bind_variable name df session]> (session_map g) in
  (name ∉ dom (user_ns (shell session))) ∧
  (∀ df, user_ns (shell (bind_variable name df session))
         = <[name := df]> (user_ns (shell session))) ∧
  (∀ encoding,
     match load_csv rd file_path encoding with
     | Ok (df, _, _) => bound df (snd (load_csv_file rd file_path sid None encoding g))
     | Raise _ => snd (load_csv_file rd file_path sid None encoding g) = g
     end) ∧
  (∀ sheet_name,
     match load_excel rd file_path sheet_name with
     | Ok (df, _) => bound df (snd (load_excel_file rd file_path sid None sheet_name g))
     | Raise _ => snd (load_excel_file rd file_path sid None sheet_name g) = g
     end) ∧
  match load_json rd file_path with
  | Ok (df, _) => bound df (snd (load_json_file rd file_path sid None g))
  | Raise _ => snd (load_json_file rd file_path sid None g) = g
  end.
Proof.
  intros Hs name bound.
  destruct (get_session_found g sid session Hs) as (Hm & Hg & Hget).
  split; [apply auto_variable_name_fresh|]. split; [done|].
  assert (∀ df lt extra,
    bound df (snd (store_frame sid session (default {| sessions := ∅ |} g)
                     file_path None df lt extra))) as Hstore.
  { intros df lt extra. rewrite store_frame_state. unfold bound. simpl.
    by rewrite <- get_session_manager_sessions, Hm. }
  split; [|split].
  - intros encoding.
    unfold load_csv_file, load_csv_file_body.
    destruct (load_csv rd file_path encoding) as [[[df enc] lt]|e] eqn:Hload.
    + assert (PANDAS_AVAILABLE = true) as ->.
      { unfold load_csv in Hload. by destruct PANDAS_AVAILABLE. }
      simpl. rewrite Hm, Hget.
      specialize (Hstore df lt {[ "encoding_detected" := VStr enc ]}).
      by destruct (store_frame _ _ _ _ _ _ _ _).
    + destruct (negb PANDAS_AVAILABLE); [done|].
      rewrite Hm, Hget. simpl. by rewrite <- Hg.
  - intros sheet_name.
    unfold load_excel_file, load_excel_file_body.
    destruct (load_excel rd file_path sheet_name) as [[df lt]|e] eqn:Hload.
    + assert (PANDAS_AVAILABLE = true ∧ EXCEL_AVAILABLE = true) as [-> ->].
      { unfold load_excel in Hload.
        destruct PANDAS_AVAILABLE; [|done]. by destruct EXCEL_AVAILABLE. }
      simpl. rewrite Hm, Hget.
      specialize (Hstore df lt {[ "sheet_name" := sheet_val sheet_name ]}).
      by destruct (store_frame _ _ _ _ _ _ _ _).
    + destruct (negb PANDAS_AVAILABLE); [done|].
      destruct (negb EXCEL_AVAILABLE); [done|].
      rewrite Hm, Hget. simpl. by rewrite <- Hg.
  - unfold load_json_file, load_json_file_body.
    destruct (load_json rd file_path) as [[df lt]|e] eqn:Hload.
    + assert (PANDAS_AVAILABLE = true) as ->.
      { unfold load_json in Hload. by destruct PANDAS_AVAILABLE. }
      simpl. rewrite Hm, Hget.
      specialize (Hstore df lt ∅).
      by destruct (store_frame _ _ _ _ _ _ _ _).
    + destruct (negb PANDAS_AVAILABLE); [done|].
      rewrite Hm, Hget. simpl. by rewrite <- Hg.
Qed.

End Loading.

(** C5 as stated fails where pandas is missing: the availability guard
    comes before the file check, and the failure names pandas. *)
Lemma pandas_guard_precedes_file_check :
  path_exists (Runtime := toy_runtime false) "missing.csv" = false ∧
  session_map (toy_globals false) !! "s1" = Some toy_session ∧
  fst (load_csv_file (RT := toy_runtime false) toy_readings "missing.csv" "s1"
         None "auto" (toy_globals false))
  = Ok (failure "pandas is not available. Please install with: pip install pandas numpy") ∧
  fst (load_csv_file (RT := toy_runtime false) toy_readings "missing.csv" "s1"
         None "auto" (toy_globals false))
  ≠ Ok (failure "File not found: missing.csv").
Proof. repeat split; try reflexivity. discriminate. Qed.

Lemma load_missing_file_witness :
  (path_exists (Runtime := toy_runtime true) "missing.csv" = false ∧
   session_map (toy_globals true) !! "s1" = Some toy_session) ∧
  (∃ msg,
     load_csv_file (RT := toy_runtime true) toy_readings "missing.csv" "s1" None
       "auto" (toy_globals true)
     = (Ok (failure msg), toy_globals true) ∧
     (PANDAS_AVAILABLE (Runtime := toy_runtime true) = true →
      msg = "File not found: missing.csv")).
Proof.
  split; [by split|].
  exact (proj1 (load_missing_file (RT := toy_runtime true) toy_readings
                  "missing.csv" "s1" None (toy_globals true) toy_session
                  eq_refl eq_refl) "auto").
Defined.

(** C10 as stated fails for a file that exists and does not parse: the
    loader reports the error and binds nothing. *)
Lemma load_unparsable_binds_nothing :
  path_exists (Runtime := toy_runtime true) "bad.csv" = true ∧
  session_map (toy_globals true) !! "s1" = Some toy_session ∧
  load_csv_file (RT := toy_runtime true) toy_readings "bad.csv" "s1" None "auto"
    (toy_globals true)
  = (Ok (failure "Error tokenizing data"), toy_globals true).
Proof. repeat split. Qed.

Lemma auto_name_binds_one_new_variable_witness :
  session_map (toy_globals true) !! "s1" = Some toy_session ∧
  auto_variable_name (RT := toy_runtime true) toy_session "data.csv" = "df_data" ∧
  match load_csv (RT := toy_runtime true) toy_readings "data.csv" "auto" with
  | Ok (df, _, _) =>
      session_map (snd (load_csv_file (RT := toy_runtime true) toy_readings
                          "data.csv" "s1" None "auto" (toy_globals true)))
      = <["s1" := bind_variable
                    (auto_variable_name (RT := toy_runtime true) toy_session "data.csv")
                    df toy_session]>
          (session_map (toy_globals true))
  | Raise _ =>
      snd (load_csv_file (RT := toy_runtime true) toy_readings "data.csv" "s1" None
             "auto" (toy_globals true))
      = toy_globals true
  end.
Proof.
  split; [reflexivity|]. split; [reflexivity|].
  exact (proj1 (proj2 (proj2
           (auto_name_binds_one_new_variable (RT := toy_runtime true) toy_readings
              "data.csv" "s1" (toy_globals true) toy_session eq_refl)))
           "auto").
Defined.

(** A second load of the same file meets the first name and takes the
    suffix 1. *)
Example second_load_takes_suffix :
  let g1 := snd (load_csv_file (RT := toy_runtime true) toy_readings "data.csv"
                   "s1" None "auto" (toy_globals true)) in
  match fst (load_csv_file (RT := toy_runtime true) toy_readings "data.csv" "s1"
               None "auto" g1) with
  | Ok d => d !! "variable_name"
  | Raise _ => None
  end = Some (VStr "df_data_1").
Proof. vm_compute. reflexivity. Qed.

(** ** Executing code through the tool *)

Section Execution.
Context {U : Universe} {RT : @Runtime U}.

(** C1, as amended.  For a submission to an existing session whose cell
    runs to its end and whose value is formatted, the dictionary
    [execute_code] returns holds the success flag, the count, the
    formatted value and the error of that submission.  In the default
    mode [stdout] and [stderr] are what the cell wrote to the two
    streams with the ANSI sequences removed, hence exactly what it wrote
    when that holds no [ESC]; in the expression mode both are empty
    whatever the cell wrote.  An error before execution (a syntax error)
    is not looked at. *)
Theorem execute_code_result rd code sid capture_output (expression_only : bool)
    g s er f :
  let run := run_cell code true (set_colors "NoColor" (shell s)) in
  let fmt := if expression_only then _format_result_direct else _format_result in
  let captured (text : string) : string :=
    if expression_only then "" else remove_ansi_codes text in
  session_map g !! sid = Some s →
  cell_result run = Ok er →
  fmt (set_colors (colors (shell s)) (cell_shell run)) (rc_result er) = Ok f →
  fst (execute_code rd code sid capture_output expression_only g)
  = Ok {[ "success" := VBool (negb (py_bool (error_in_exec er)));
          "execution_count" := VInt (execution_count s + 1);
          "stdout" := VStr (captured (cell_stdout run));
          "stderr" := VStr (captured (cell_stderr run));
          "result" := VOptStr f;
          "execution_time" := VFloat (fround (fsub (time_end rd) (time_start rd)) 3);
          "memory_delta_mb" :=
            VFloat (fround (fsub (_get_memory_usage (rss_end rd))
                                 (_get_memory_usage (rss_start rd))) 2);
          "error" := VOptStr (if py_bool (error_in_exec er)
                              then remove_ansi_codes <$> (exn_str <$> error_in_exec er)
                              else None) ]} ∧
  (expression_only = false →
   has_char ESC (cell_stdout run) = false →
   has_char ESC (cell_stderr run) = false →
   captured (cell_stdout run) = cell_stdout run ∧
   captured (cell_stderr run) = cell_stderr run).
Proof.
  intros run fmt captured Hs Hcell Hfmt.
  destruct (get_session_found g sid s Hs) as (Hm & Hg & Hget).
  split.
  - unfold execute_code, execute_code_body. rewrite Hm, Hget.
    subst run fmt captured.
    destruct expression_only;
      unfold execute_expression_only, execute, execute_with;
      simpl; rewrite Hcell; simpl; rewrite Hfmt; simpl;
      destruct (error_in_exec er) as [e|]; simpl; try done;
      by destruct (exn_bool e).
  - intros -> Hout Herr. subst captured. simpl.
    rewrite !remove_ansi_codes_sub.
    split; by apply ansi_sub_no_match, no_esc_no_match.
Qed.

(** When the cell or the formatter raises an [Exception], the method's
    own handler answers: no success, no output, no value, and the
    message with the ANSI sequences removed. *)
Lemma execute_code_cell_raises rd code sid capture_output expression_only g s e :
  session_map g !! sid = Some s →
  cell_result (run_cell code true (set_colors "NoColor" (shell s))) = Raise e →
  is_Exception e = true →
  fst (execute_code rd code sid capture_output expression_only g)
  = Ok {[ "success" := VBool false;
          "execution_count" := VInt (execution_count s);
          "stdout" := VStr "";
          "stderr" := VStr "";
          "result" := VNone;
          "execution_time" := VFloat (fround (fsub (time_end rd) (time_start rd)) 3);
          "memory_delta_mb" := VFloat (fround fzero 2);
          "error" := VStr (remove_ansi_codes
                             ("执行错误: " +:+ exn_str e +:+ nl +:+ exn_traceback e)) ]}.
Proof.
  intros Hs Hcell He.
  destruct (get_session_found g sid s Hs) as (Hm & Hg & Hget).
  unfold execute_code, execute_code_body. rewrite Hm, Hget.
  destruct expression_only;
    unfold execute_expression_only, execute, execute_with, on_execution_error;
    simpl; rewrite Hcell, He; done.
Qed.

(** ** The handlers of the tools *)


End Execution.

(** C1 as stated fails in the expression mode: the cell [print('hi')]
    writes [hi] and a line feed to standard output, and the [stdout] the
    tool returns is empty.  It fails in the default mode as well when the
    output holds an ANSI sequence: [1/0] writes a coloured line and the
    tool returns it without the colour. *)
Lemma execute_code_expression_mode_drops_stdout :
  session_map (toy_globals true) !! "s1" = Some toy_session ∧
  cell_stdout (run_cell (Runtime := toy_runtime true) "print('hi')" true
                 (set_colors "NoColor" (shell toy_session)))
  = "hi" +:+ nl ∧
  match fst (execute_code (RT := toy_runtime true) toy_readings "print('hi')" "s1"
               true true (toy_globals true)) with
  | Ok d => d !! "success" = Some (VBool true) ∧ d !! "stdout" = Some (VStr "")
  | Raise _ => False
  end ∧
  cell_stdout (run_cell (Runtime := toy_runtime true) "1/0" true
                 (set_colors "NoColor" (shell toy_session)))
  = String ESC "[31mZeroDivisionError" +:+ String ESC "[0m" ∧
  match fst (execute_code (RT := toy_runtime true) toy_readings "1/0" "s1"
               true false (toy_globals true)) with
  | Ok d => d !! "stdout" = Some (VStr "ZeroDivisionError")
  | Raise _ => False
  end.
Proof. repeat split. Qed.

Lemma execute_code_result_witness :
  session_map (toy_globals true) !! "s1" = Some toy_session ∧
  match fst (execute_code (RT := toy_runtime true) toy_readings "print('hi')" "s1"
               true false (toy_globals true)) with
  | Ok d => d !! "stdout" = Some (VStr ("hi" +:+ nl)) ∧
            d !! "success" = Some (VBool true) ∧
            d !! "error" = Some VNone
  | Raise _ => False
  end.
Proof.
  split; [reflexivity|].
  rewrite (proj1 (execute_code_result (RT := toy_runtime true) toy_readings
                    "print('hi')" "s1" true false (toy_globals true) toy_session
                    {| rc_result := None; error_before_exec := None;
                       error_in_exec := None |} None
                    eq_refl eq_refl eq_refl)).
  repeat split.
Defined.


(** * Further properties *)

(** ** More on ANSI stripping *)

Lemma subseq_refl s : subseq s s.
Proof. induction s; by constructor. Qed.

Lemma subseq_suffix t s u : subseq t s → suffix_of s u → subseq t u.
Proof. intros Hts Hsu. induction Hsu; [done | by constructor]. Qed.

Lemma ansi_sub_subseq s : subseq (ansi_sub s) s.
Proof.
  remember (String.length s) as n eqn:Hn.
  revert s Hn. induction (lt_wf n) as [n _ IH]. intros s ->.
  destruct s as [|c r]; [simp ansi_sub; constructor|].
  rewrite ansi_sub_cons.
  destruct (ansi_match (String c r)) as [r'|] eqn:E.
  - eapply subseq_suffix; [|by apply ansi_match_suffix].
    by eapply (IH _ (ansi_match_length _ _ E)).
  - constructor. eapply (IH (String.length r)); [simpl; lia | done].
Qed.

(** X1.  [remove_ansi_codes] only takes characters out: its output is the
    input with some characters removed, in the same order, so it is
    never longer; and a text without [ESC] comes back as it is. *)
Theorem remove_ansi_codes_only_removes (s : string) :
  subseq (remove_ansi_codes s) s ∧
  String.length (remove_ansi_codes s) ≤ String.length s ∧
  (has_char ESC s = false → remove_ansi_codes s = s).
Proof.
  rewrite remove_ansi_codes_sub. split; [apply ansi_sub_subseq|].
  split; [apply ansi_sub_length|].
  intros Hesc. by apply ansi_sub_no_match, no_esc_no_match.
Qed.

Lemma remove_ansi_codes_only_removes_witness :
  has_char ESC "plain text" = false ∧ remove_ansi_codes "plain text" = "plain text".
Proof.
  split; [reflexivity|].
  exact (proj2 (proj2 (remove_ansi_codes_only_removes "plain text")) eq_refl).
Defined.

Lemma ansi_sub_plain_app t r :
  has_char ESC t = false → ansi_sub (t +:+ r) = t +:+ ansi_sub r.
Proof.
  induction t as [|c t IH]; [done|].
  simpl. intros Hc. apply orb_false_iff in Hc as [Hc Ht].
  rewrite !string_app_cons, ansi_sub_cons. simpl.
  rewrite Hc. by rewrite IH.
Qed.

Lemma ansi_sub_seq_app m r : ansi_seq m → ansi_sub (m +:+ r) = ansi_sub r.
Proof.
  intros Hm. pose proof (ansi_match_complete m r Hm) as Hmatch.
  destruct Hm; rewrite string_app_cons in *; by rewrite ansi_sub_cons, Hmatch.
Qed.

(** X2.  A text made of stretches without [ESC] and of sequences the
    pattern matches loses exactly its sequences: what is left is the
    stretches, joined. *)
Theorem remove_ansi_codes_keeps_plain (ps : list piece) :
  Forall piece_ok ps →
  remove_ansi_codes (render ps) = plain_text ps.
Proof.
  rewrite remove_ansi_codes_sub.
  induction 1 as [|[t|m] ps Hp _ IH]; simpl in *.
  - by simp ansi_sub.
  - by rewrite ansi_sub_plain_app, IH.
  - by rewrite ansi_sub_seq_app.
Qed.

Lemma remove_ansi_codes_keeps_plain_witness :
  let ps := [Seq (String ESC "[1;31m"); Plain "error"; Seq (String ESC "[0m");
             Plain ": "; Seq (String ESC "M"); Plain "done"] in
  Forall piece_ok ps ∧ remove_ansi_codes (render ps) = "error: done".
Proof.
  assert (Forall piece_ok
            [Seq (String ESC "[1;31m"); Plain "error"; Seq (String ESC "[0m");
             Plain ": "; Seq (String ESC "M"); Plain "done"]) as Hok.
  { repeat constructor.
    - by apply (ansi_seq_csi "1;31" "" "m").
    - by apply (ansi_seq_csi "0" "" "m"). }
  split; [exact Hok|].
  exact (remove_ansi_codes_keeps_plain _ Hok).
Defined.

(** ** More on the session *)

Section SessionMore.
Context {U : Universe} {RT : @Runtime U}.

Lemma format_fallback_raises o e :
  format_fallback o = Raise e → is_Exception e = true → py_str o = Raise e.
Proof.
  unfold format_fallback, try_except.
  destruct (if has_to_string o then _ else _) as [s|e0] eqn:E.
  - done.
  - destruct (is_Exception e0) eqn:E0; [by intros -> |].
    intros [= ->]. congruence.
Qed.

(** X3.  [_format_result] and [_format_result_direct] give [None] for
    [None] and some text for any other value; an [Exception] leaves them
    only when [str(obj)] itself raises it, every other failure of a
    formatter being absorbed. *)
Theorem format_result_total sh (o : pyobj) :
  _format_result sh None = Ok None ∧
  _format_result_direct sh None = Ok None ∧
  (∀ r, _format_result sh (Some o) = Ok r ∨ _format_result_direct sh (Some o) = Ok r →
        ∃ s, r = Some s) ∧
  (∀ e, _format_result sh (Some o) = Raise e ∨ _format_result_direct sh (Some o) = Raise e →
        is_Exception e = true → py_str o = Raise e).
Proof.
  split; [done|]. split; [done|].
  assert (∀ r, _format_result sh (Some o) = Ok r → ∃ s, r = Some s) as Hok.
  { intros r. simpl.
    destruct (display_format sh o) as [[s|]|e]; simpl.
    - destruct (bool_decide (s = "")); simpl; [|by intros [= <-]; eauto].
      destruct (format_fallback o); simpl; [by intros [= <-]; eauto | done].
    - destruct (format_fallback o); simpl; [by intros [= <-]; eauto | done].
    - destruct (is_Exception e); [|done].
      destruct (format_fallback o); simpl; [by intros [= <-]; eauto | done]. }
  assert (∀ e, _format_result sh (Some o) = Raise e → is_Exception e = true →
               py_str o = Raise e) as Hraise.
  { intros e. simpl.
    destruct (display_format sh o) as [[s|]|e0]; simpl.
    - destruct (bool_decide (s = "")); simpl; [|done].
      destruct (format_fallback o) eqn:E; simpl; [done|].
      intros [= ->]. by apply format_fallback_raises.
    - destruct (format_fallback o) eqn:E; simpl; [done|].
      intros [= ->]. by apply format_fallback_raises.
    - destruct (is_Exception e0) eqn:E0; [|intros [= ->]; congruence].
      destruct (format_fallback o) eqn:E; simpl; [done|].
      intros [= ->]. by apply format_fallback_raises. }
  split.
  - intros r [H|H]; [by apply Hok|]. revert H. simpl.
    destruct (plain_format sh o) as [[s|]|e]; simpl.
    + destruct (bool_decide (s = "")); simpl; [apply Hok | by intros [= <-]; eauto].
    + apply Hok.
    + destruct (is_Exception e); [apply Hok | done].
  - intros e [H|H]; [by apply Hraise|]. revert H. simpl.
    destruct (plain_format sh o) as [[s|]|e0]; simpl.
    + destruct (bool_decide (s = "")); simpl; [apply Hraise | done].
    + apply Hraise.
    + destruct (is_Exception e0) eqn:E0; [apply Hraise|].
      intros [= ->]. congruence.
Qed.

(** What one call does to the counter and to the colour scheme. *)
Lemma run_call_bookkeeping c s :
  execution_count (snd (run_call c s))
  = (execution_count s + if cell_returned c s then 1 else 0)%Z ∧
  (cell_returned c s = true →
   colors (shell (snd (run_call c s))) = colors (shell s)).
Proof.
  destruct c as [[] rd code]; simpl;
    unfold execute_expression_only, execute, execute_with, on_execution_error;
    simpl.
  all: destruct (cell_result _) as [er|e]; simpl.
  all: try (destruct (is_Exception e); simpl; (split; [by rewrite ?Z.add_0_r | done])).
  all: match goal with
       | |- context [_format_result_direct ?a ?b] =>
           destruct (_format_result_direct a b) as [f|e]
       | |- context [_format_result ?a ?b] =>
           destruct (_format_result a b) as [f|e]
       end; simpl.
  all: try (destruct (is_Exception e); simpl; (split; [by rewrite ?Z.add_0_r | done])).
  all: done.
Qed.

(** X4.  The counter of a session counts the calls whose cell returned:
    after any sequence of calls to [execute] and
    [execute_expression_only] it has grown by their number, a call whose
    [run_cell] raised not being counted and a call whose value could not
    be formatted being counted. *)
Theorem execution_count_counts_returned_cells (cs : list call) (s : IPythonSession) :
  execution_count (run_calls cs s) = (execution_count s + returned_cells cs s)%Z.
Proof.
  revert s. induction cs as [|c cs IH]; intros s; simpl; [lia|].
  rewrite IH. destruct (run_call_bookkeeping c s) as [-> _]. lia.
Qed.

(** X5.  A call whose cell returns leaves the colour scheme of the shell
    as it found it, whatever the cell did to it: the scheme is set to
    [NoColor] for the run and put back afterwards. *)
Theorem execute_restores_colors (c : call) (s : IPythonSession) :
  cell_returned c s = true →
  colors (shell (snd (run_call c s))) = colors (shell s).
Proof. intros H. by apply run_call_bookkeeping. Qed.

End SessionMore.

Section HistoryMore.
Context {U : Universe} {RT : @Runtime U}.

(** The three ways a call can end, and what each leaves. *)
Lemma run_call_cases c s :
  let s' := snd (run_call c s) in
  (cell_returned c s = false ∧ completed c s = false ∧
   history s' = history s ∧ execution_count s' = execution_count s) ∨
  (cell_returned c s = true ∧ completed c s = false ∧
   history s' = history s ∧ execution_count s' = (execution_count s + 1)%Z) ∨
  (cell_returned c s = true ∧ completed c s = true ∧
   execution_count s' = (execution_count s + 1)%Z ∧
   ∃ r entry,
     fst (run_call c s) = Ok r ∧
     history s' = record_history entry (history s) ∧
     h_execution_count entry = (execution_count s + 1)%Z ∧
     h_execution_count entry = er_execution_count r ∧
     h_success entry = success r ∧
     h_stdout entry = stdout r ∧
     h_stderr entry = stderr r ∧
     h_result entry = result_text r ∧
     h_error entry = error r ∧
     h_execution_time entry = execution_time r).
Proof.
  destruct c as [[] rd code]; simpl;
    unfold execute_expression_only, execute, execute_with, on_execution_error;
    simpl.
  all: destruct (cell_result _) as [er|e]; simpl.
  all: try (destruct (is_Exception e); simpl; by left).
  all: match goal with
       | |- context [_format_result_direct ?a ?b] =>
           destruct (_format_result_direct a b) as [f|e]
       | |- context [_format_result ?a ?b] =>
           destruct (_format_result a b) as [f|e]
       end; simpl.
  all: try (destruct (is_Exception e); simpl; by (right; left)).
  all: right; right; repeat (split; [done|]); eexists _, _; repeat split.
Qed.

Lemma StronglySorted_drop {A} (R : relation A) n (l : list A) :
  StronglySorted R l → StronglySorted R (drop n l).
Proof.
  intros H. rewrite <- (take_drop n l) in H. by apply StronglySorted_app_1_r in H.
Qed.

Lemma counts_increase_step c s :
  counts_increase s → counts_increase (snd (run_call c s)).
Proof.
  intros [Hsorted Hbound]. unfold counts_increase.
  destruct (run_call_cases c s)
    as [(_ & _ & -> & ->)|[(_ & _ & -> & ->)|(_ & _ & -> & r & entry & _ & -> & Hc & _)]].
  - done.
  - split; [done|]. eapply Forall_impl; [exact Hbound|]. simpl. lia.
  - rewrite record_history_lastn. unfold lastn. split.
    + rewrite fmap_drop. apply StronglySorted_drop.
      rewrite fmap_app. apply StronglySorted_app. split; [|split; [done|]].
      * intros x1 x2 Hx1 Hx2. apply list_elem_of_fmap in Hx1 as (h & -> & Hh).
        apply list_elem_of_singleton in Hx2 as ->. simpl.
        rewrite Forall_forall in Hbound. specialize (Hbound h Hh). simpl in Hbound. lia.
      * simpl. repeat constructor.
    + apply Forall_drop, Forall_app. split.
      * eapply Forall_impl; [exact Hbound|]. simpl. lia.
      * apply Forall_singleton. lia.
Qed.

(** X6.  From a session whose history holds strictly increasing counts,
    none above the counter (a new session holds none), every sequence of
    calls leaves a history with strictly increasing counts, none above
    the counter: two entries never carry the same [execution_count], and
    a later entry carries a larger one. *)
Theorem history_counts_increase (cs : list call) (s : IPythonSession) :
  counts_increase s → counts_increase (run_calls cs s).
Proof.
  revert s. induction cs as [|c cs IH]; intros s Hs; simpl; [done|].
  by apply IH, counts_increase_step.
Qed.

(** X7.  A call that completes appends an entry that says what the
    caller was told: the last entry of the history has the count, the
    success flag, the two outputs, the value, the error and the time of
    the [ExecutionResult] the call returned. *)
Theorem history_entry_agrees_with_result (c : call) (s : IPythonSession) r :
  fst (run_call c s) = Ok r →
  completed c s = true →
  ∃ entry, last (history (snd (run_call c s))) = Some entry ∧
           h_execution_count entry = er_execution_count r ∧
           h_success entry = success r ∧
           h_stdout entry = stdout r ∧
           h_stderr entry = stderr r ∧
           h_result entry = result_text r ∧
           h_error entry = error r ∧
           h_execution_time entry = execution_time r.
Proof.
  intros Hr Hdone.
  destruct (run_call_cases c s)
    as [(_ & Hc & _)|[(_ & Hc & _)|(_ & _ & _ & r' & entry & Hr' & Hh & _ & H)]];
    [congruence..|].
  rewrite Hr in Hr'. injection Hr' as <-.
  exists entry. split; [|exact H].
  rewrite Hh, record_history_lastn. unfold lastn.
  rewrite drop_app_le by (rewrite length_app; simpl; lia).
  apply last_snoc.
Qed.

End HistoryMore.

(** ** More on the operations *)

Section ToolsMore.
Context {U : Universe} {RT : @Runtime U}.

Lemma get_session_missing g sid :
  sid ∉ dom (session_map g) →
  get_session sid (fst (get_session_manager g))
  = Raise (mk_exn ValueError ("Session " +:+ sid +:+ " not found")) ∧
  sessions (fst (get_session_manager g)) = session_map g.
Proof.
  intros Hout. split; [|apply get_session_manager_sessions].
  unfold get_session. rewrite get_session_manager_sessions.
  apply not_elem_of_dom in Hout. by rewrite Hout.
Qed.

(** X8.  Every operation that takes a session id answers an id that is
    not in the map with a failure and leaves the map as it is; unless an
    availability guard of a loader answers first, the error is the same
    text for all of them, [Session <id> not found], without the prefix
    of the operation. *)
Theorem unknown_session_reported rd (c : tool_call) g sid :
  session_of c = Some sid →
  sid ∉ dom (session_map g) →
  ∃ msg, fst (run_tool rd c g) = Ok (failure msg) ∧
         session_map (snd (run_tool rd c g)) = session_map g ∧
         (guards_pass c = true → msg = "Session " +:+ sid +:+ " not found").
Proof.
  intros Hc Hout.
  destruct (get_session_missing g sid Hout) as [Hget Hm].
  destruct c; simpl in Hc; try discriminate Hc; injection Hc as ->; simpl.
  - (* delete *)
    unfold delete_ipython_session, delete_ipython_session_body, delete_session.
    destruct (get_session_manager g) as [m g0]. simpl in *.
    rewrite Hm, decide_False by done. simpl. by eexists.
  - unfold execute_code, execute_code_body.
    destruct (get_session_manager g) as [m g0]. simpl in *.
    rewrite Hget. simpl. by eexists.
  - unfold get_execution_history, get_execution_history_body.
    destruct (get_session_manager g) as [m g0]. simpl in *.
    rewrite Hget. simpl. by eexists.
  - unfold load_csv_file, load_csv_file_body.
    destruct PANDAS_AVAILABLE; simpl; [|by eexists].
    destruct (get_session_manager g) as [m g0]. simpl in *.
    rewrite Hget. simpl. by eexists.
  - unfold load_excel_file, load_excel_file_body.
    destruct PANDAS_AVAILABLE; simpl; [|by eexists].
    destruct EXCEL_AVAILABLE; simpl; [|by eexists].
    destruct (get_session_manager g) as [m g0]. simpl in *.
    rewrite Hget. simpl. by eexists.
  - unfold load_json_file, load_json_file_body.
    destruct PANDAS_AVAILABLE; simpl; [|by eexists].
    destruct (get_session_manager g) as [m g0]. simpl in *.
    rewrite Hget. simpl. by eexists.
  - unfold clear_variables, clear_variables_body.
    destruct (get_session_manager g) as [m g0]. simpl in *.
    rewrite Hget. simpl. by eexists.
  - unfold inspection_tool, inspection_body.
    destruct (get_session_manager g) as [m g0]. simpl in *.
    rewrite Hget. simpl. by eexists.
Qed.

(** X9.  Creating a session and deleting the id that was returned gives
    back the map of sessions there was before. *)
Theorem create_then_delete rd sid auto_import g d :
  fst (create_ipython_session rd sid auto_import g) = Ok d →
  d !! "success" = Some (VBool true) →
  ∃ id, d !! "session_id" = Some (VStr id) ∧
        let g1 := snd (create_ipython_session rd sid auto_import g) in
        fst (delete_ipython_session id g1)
        = Ok {[ "success" := VBool true;
                "message" := VStr ("Session " +:+ id +:+ " deleted successfully") ]} ∧
        session_map (snd (delete_ipython_session id g1)) = session_map g.
Proof.
  unfold create_ipython_session, create_ipython_session_body.
  destruct (negb IPYTHON_AVAILABLE); simpl; [by intros [= <-]|].
  pose proof (get_session_manager_sessions g) as Hm.
  destruct (get_session_manager g) as [m g0]. simpl in Hm.
  pose proof (create_session_spec rd sid auto_import m) as Hc.
  destruct (create_session rd sid auto_import m) as [[id|e] m']; simpl.
  - destruct Hc as (Hfresh & _ & s & _ & Hs).
    intros [= <-] _. exists id. split; [done|].
    unfold delete_ipython_session, delete_ipython_session_body, delete_session.
    simpl. rewrite Hs.
    rewrite decide_True by (rewrite dom_insert; set_solver).
    simpl. split; [done|].
    rewrite delete_insert_eq, <- Hm. apply delete_id. by apply not_elem_of_dom.
  - unfold except_Exception, except_as. simpl.
    destruct (is_Exception e); [|done]. by intros [= <-].
Qed.



(** X11.  Where IPython is available and the shell can be built, a
    session with a new id is created whatever happens to the optional
    steps: a failure of the formatter setting, of the matplotlib cell or
    of the import cell does not fail the creation.  The success
    dictionary repeats the id and lists the six libraries exactly when
    [auto_import] was asked, whether or not the import cell worked. *)
Theorem create_survives_optional_setup rd sid auto_import g sh :
  IPYTHON_AVAILABLE = true →
  InteractiveShell = Ok sh →
  default ("session_" +:+ uuid_hex8 rd) sid ∉ dom (session_map g) →
  match fst (create_ipython_session rd sid auto_import g) with
  | Ok d =>
      d !! "success" = Some (VBool true) ∧
      d !! "session_id" = Some (VStr (default ("session_" +:+ uuid_hex8 rd) sid)) ∧
      d !! "auto_imported"
      = Some (VList (VStr <$> (if auto_import then auto_imported_names else [])))
  | Raise e => is_Exception e = false
  end.
Proof.
  intros Hipy Hsh Hfresh.
  unfold create_ipython_session, create_ipython_session_body.
  rewrite Hipy. simpl.
  pose proof (get_session_manager_sessions g) as Hm.
  destruct (get_session_manager g) as [m g0]. simpl in Hm.
  unfold create_session.
  replace (match sid with Some s => s | None => "session_" +:+ uuid_hex8 rd end)
    with (default ("session_" +:+ uuid_hex8 rd) sid) by by destruct sid.
  rewrite Hm, decide_False by done.
  unfold IPythonSession_init. rewrite Hipy, Hsh. simpl.
  destruct auto_import; [|done].
  unfold _auto_import_libraries.
  destruct (cell_result _) as [r|e]; simpl; [done|].
  destruct (is_Exception e) eqn:He; simpl; [done|].
  unfold except_Exception, except_as. simpl. by rewrite He.
Qed.

End ToolsMore.

Section HistoryTool.
Context {U : Universe} {RT : @Runtime U}.

(** X12.  For an existing session [get_execution_history] changes
    nothing and returns the tail of the history: its last [limit]
    entries when [limit] is positive (all of them when there are fewer),
    and the whole history when [limit] is zero or negative;
    [total_executions] is the length of the whole history either way. *)
Theorem get_execution_history_window sid (limit : Z) include_output g s :
  session_map g !! sid = Some s →
  ∃ shown,
    get_execution_history sid limit include_output g
    = (Ok {[ "success" := VBool true;
             "history" := VList (entry_val include_output <$> shown);
             "total_executions" := VInt (Z.of_nat (length (history s))) ]}, g) ∧
    suffix shown (history s) ∧
    length shown = (if (0 <? limit)%Z
                    then Z.to_nat limit `min` length (history s)
                    else length (history s)).
Proof.
  intros Hs. destruct (get_session_found g sid s Hs) as (Hm & Hg & Hget).
  unfold get_execution_history, get_execution_history_body.
  rewrite Hm, Hget. simpl. rewrite <- Hg.
  eexists. split; [reflexivity|].
  destruct (0 <? limit)%Z; [|done].
  split; [apply suffix_drop | apply length_lastn].
Qed.

End HistoryTool.

(** ** Clearing variables *)

Section Clearing.
Context {U : Universe} {RT : @Runtime U}.

Lemma delete_names_spec (names : list string) :
  ∀ (ns : gmap string pyobj) cleared,
    (∀ k, (delete_names names ns cleared).1 !! k
          = if decide (k ∈ names) then None else ns !! k) ∧
    ∃ new, (delete_names names ns cleared).2 = cleared ++ new ∧
           NoDup new ∧
           ∀ k, k ∈ new ↔ k ∈ names ∧ k ∈ dom ns.
Proof.
  induction names as [|name rest IH]; intros ns cleared; simpl.
  - split; [done|]. exists []. rewrite app_nil_r. split; [done|].
    split; [constructor|]. intros k. rewrite !elem_of_nil. tauto.
  - destruct (decide (name ∈ dom ns)) as [Hin|Hout].
    + destruct (IH (delete name ns) (cleared ++ [name]))
        as (Hlook & new & -> & Hnd & Hmem).
      split.
      * intros k. rewrite Hlook, lookup_delete.
        repeat case_decide; subst; try done;
          exfalso; rewrite elem_of_cons in *; intuition congruence.
      * exists (name :: new). rewrite <- app_assoc. split; [done|]. split.
        -- constructor; [|done]. rewrite Hmem, elem_of_dom, lookup_delete_eq.
           intros [_ [? ?]]. done.
        -- intros k. rewrite !elem_of_cons, Hmem, !elem_of_dom, lookup_delete.
           case_decide; subst.
           ++ apply elem_of_dom in Hin. intuition congruence.
           ++ intuition congruence.
    + destruct (IH ns cleared) as (Hlook & new & -> & Hnd & Hmem).
      split.
      * intros k. rewrite Hlook. apply not_elem_of_dom in Hout.
        repeat case_decide; subst; try done;
          try (exfalso; rewrite elem_of_cons in *; intuition congruence).
        rewrite elem_of_cons in *.
        destruct (decide (k = name)) as [->|]; [done | intuition congruence].
      * exists new. split; [done|]. split; [done|].
        intros k. rewrite elem_of_cons, Hmem. split; [tauto|].
        intros [[->|?] ?]; [done | tauto].
Qed.


(** X13.  [clear_variables] with a list of names unbinds each of them,
    hidden and reserved names too, and touches nothing else: no other
    variable, no other part of the session, no other session.
    [cleared_variables] holds, once each, exactly the listed names that
    were bound. *)
Theorem clear_variables_by_name rd sid (names : list string) keep_imports g s :
  session_map g !! sid = Some s →
  names ≠ [] →
  ∃ ns' cleared d,
    clear_variables rd sid (Some names) false keep_imports g
    = (Ok d, Some (put_session sid (with_namespace ns' s)
                     (default {| sessions := ∅ |} g))) ∧
    d !! "success" = Some (VBool true) ∧
    d !! "cleared_variables" = Some (VList (VStr <$> cleared)) ∧
    NoDup cleared ∧
    (∀ k, k ∈ cleared ↔ k ∈ names ∧ k ∈ dom (user_ns (shell s))) ∧
    (∀ k, ns' !! k = if decide (k ∈ names) then None else user_ns (shell s) !! k).
Proof.
  intros Hs Hne. destruct (get_session_found g sid s Hs) as (Hm & Hg & Hget).
  unfold clear_variables, clear_variables_body. rewrite Hm, Hget.
  destruct names as [|n names]; [done|].
  destruct (delete_names_spec (n :: names) (user_ns (shell s)) [])
    as (Hlook & new & Hnew & Hnd & Hmem).
  destruct (delete_names (n :: names) (user_ns (shell s)) []) as [ns' cleared].
  simpl in Hlook, Hnew. subst cleared.
  exists ns', new. eexists. split; [reflexivity|].
  split; [done|]. split; [done|]. done.
Qed.


(** X15.  [clear_variables] without [clear_all] and without a name (no
    list, or an empty one) deletes nothing, changes nothing and returns
    a failure that says what to specify. *)
Theorem clear_variables_needs_a_target rd sid variable_names keep_imports g s :
  session_map g !! sid = Some s →
  variable_names = None ∨ variable_names = Some [] →
  clear_variables rd sid variable_names false keep_imports g
  = (Ok (failure "Must specify either variable_names or set clear_all=True"), g).
Proof.
  intros Hs Hv. destruct (get_session_found g sid s Hs) as (Hm & Hg & Hget).
  unfold clear_variables, clear_variables_body. rewrite Hm, Hget.
  destruct Hv as [-> | ->]; simpl; by rewrite <- Hg.
Qed.

End Clearing.

(** ** More on loading *)

Section LoadingMore.
Context {U : Universe} {RT : @Runtime U}.

Lemma detect_encoding_from_spec encs file_path :
  match detect_encoding_from encs file_path with
  | Ok enc =>
      (∃ before after, encs = before ++ enc :: after ∧
         open_read file_path enc = Ok () ∧
         Forall (λ x, ∃ e, open_read file_path x = Raise e ∧ is_UnicodeError e = true)
                before) ∨
      (enc = "utf-8" ∧
       Forall (λ x, ∃ e, open_read file_path x = Raise e ∧ is_UnicodeError e = true)
              encs)
  | Raise e =>
      is_UnicodeError e = false ∧
      ∃ before enc after, encs = before ++ enc :: after ∧
        open_read file_path enc = Raise e ∧
        Forall (λ x, ∃ e, open_read file_path x = Raise e ∧ is_UnicodeError e = true)
               before
  end.
Proof.
  induction encs as [|enc encs IH]; simpl; [by right|].
  destruct (open_read file_path enc) as [[]|e] eqn:E.
  - left. by exists [], encs.
  - destruct (is_UnicodeError e) eqn:Hu.
    + destruct (detect_encoding_from encs file_path) as [enc'|e'].
      * destruct IH as [(before & after & -> & Hok & Hall)|[-> Hall]].
        -- left. exists (enc :: before), after. split; [done|]. split; [done|].
           constructor; eauto.
        -- right. split; [done|]. constructor; eauto.
      * destruct IH as (Hu' & before & enc' & after & -> & Hr & Hall).
        split; [done|]. exists (enc :: before), enc', after.
        split; [done|]. split; [done|]. constructor; eauto.
    + split; [done|]. by exists [], enc, encs.
Qed.


(** X17.  For a file that exists and has another extension than [.xlsx]
    and [.xls], with pandas and an Excel library available, [load_excel]
    reads with no engine named, then with [openpyxl], then with [xlrd],
    and returns the first frame it gets; a later read is made only after
    the first one raised an [Exception].  When it raises, the exception
    is that of the first read, whatever the later reads raised. *)
Theorem load_excel_engine_order rd file_path sheet_name :
  PANDAS_AVAILABLE = true →
  EXCEL_AVAILABLE = true →
  path_exists file_path = true →
  path_suffix_lower file_path ∉ [".xlsx"; ".xls"] →
  let read := read_excel file_path sheet_name in
  match load_excel rd file_path sheet_name with
  | Ok (df, lt) =>
      lt = load_time rd ∧
      (read None = Ok df ∨
       ∃ e, read None = Raise e ∧ is_Exception e = true ∧
            (read (Some "openpyxl") = Ok df ∨
             ∃ e', read (Some "openpyxl") = Raise e' ∧ read (Some "xlrd") = Ok df))
  | Raise e =>
      read None = Raise e ∧
      (is_Exception e = true →
       ∃ e1 e2, read (Some "openpyxl") = Raise e1 ∧ read (Some "xlrd") = Raise e2)
  end.
Proof.
  intros Hpd Hxl Hex Hext read.
  unfold load_excel. rewrite Hpd, Hxl, Hex. simpl.
  assert (path_suffix_lower file_path ≠ ".xlsx") as Hx1.
  { intros Heq. apply Hext. rewrite Heq. left. }
  assert (path_suffix_lower file_path ≠ ".xls") as Hx2.
  { intros Heq. apply Hext. rewrite Heq. right. left. }
  rewrite (bool_decide_eq_false_2 _ Hx1), (bool_decide_eq_false_2 _ Hx2).
  simpl. fold read.
  destruct (read None) as [df|e] eqn:E0; simpl; [split; [done | by left]|].
  destruct (is_Exception e) eqn:He; simpl; [|split; [done | intros; congruence]].
  rewrite (bool_decide_eq_false_2 _ Hext). simpl. fold read.
  destruct (read (Some "openpyxl")) as [df|e1] eqn:E1; simpl.
  { split; [done|]. right. exists e. eauto. }
  destruct (read (Some "xlrd")) as [df|e2] eqn:E2; simpl.
  { split; [done|]. right. exists e. split; [done|]. split; [done|]. right. eauto. }
  split; [done|]. eauto.
Qed.

(** The loop stops at the first name that is free. *)
Lemma name_loop_first_free {V} (variables : gmap string V) base_name :
  ∀ fuel variable_name counter name,
    name_loop fuel variables base_name variable_name counter = Some name →
    (name = variable_name ∧ variable_name ∉ dom variables) ∨
    (variable_name ∈ dom variables ∧
     ∃ k, counter ≤ k ∧ name = candidate base_name k ∧
          (name ∉ dom variables) ∧
          ∀ j, counter ≤ j < k → candidate base_name j ∈ dom variables).
Proof.
  induction fuel as [|fuel IH]; intros variable_name counter name; simpl.
  - destruct (decide (variable_name ∈ dom variables)); [done|].
    intros [= <-]. by left.
  - destruct (decide (variable_name ∈ dom variables)) as [Hin|Hout].
    + intros Hloop. right. split; [done|].
      destruct (IH _ _ _ Hloop) as [[-> Hfree]|(Hc & k & Hk & -> & Hfree & Hbefore)].
      * exists counter. split; [lia|]. split; [done|]. split; [done|].
        intros j Hj. lia.
      * exists k. split; [lia|]. split; [done|]. split; [done|].
        intros j Hj. destruct (decide (j = counter)) as [->|]; [done|].
        apply Hbefore. lia.
    + intros [= <-]. by left.
Qed.

(** X18.  The automatic name is the first free one: [df_<stem>] when
    that is not bound, and otherwise [df_<stem>_<k>] for the least
    [k ≥ 1] whose name is not bound, every name tried before it being
    bound. *)
Theorem auto_variable_name_least session file_path :
  let stem := path_stem file_path in
  let ns := user_ns (shell session) in
  let name := auto_variable_name session file_path in
  (name = "df_" +:+ stem ∧ "df_" +:+ stem ∉ dom ns) ∨
  ("df_" +:+ stem ∈ dom ns ∧
   ∃ k, 1 ≤ k ∧ name = candidate stem k ∧ (candidate stem k ∉ dom ns) ∧
        ∀ j, 1 ≤ j < k → candidate stem j ∈ dom ns).
Proof.
  intros stem ns name. subst name. unfold auto_variable_name. fold stem.
  destruct (name_loop_exits (get_variables session) stem) as (name & Hloop & _).
  rewrite Hloop. simpl.
  assert (∀ rest, "df_" +:+ rest ∈ dom (get_variables session) ↔ "df_" +:+ rest ∈ dom ns)
    as Hdom.
  { intros rest. apply get_variables_dom, df_name_user_visible. }
  destruct (name_loop_first_free _ _ _ _ _ _ Hloop)
    as [[-> Hfree]|(Hin & k & Hk & -> & Hfree & Hbefore)].
  - left. by rewrite <- Hdom.
  - right. split; [by rewrite <- Hdom|].
    exists k. split; [done|]. split; [done|].
    unfold candidate in *. split; [by rewrite <- Hdom|].
    intros j Hj. rewrite <- Hdom. by apply Hbefore.
Qed.

(** X19.  A loader given a variable name uses it as it is, without any
    test for a conflict: the name is bound to the frame, replacing what
    it was bound to.  The binding is made before the frame is
    described: when describing it raises, the tool reports a failure
    and the name is bound all the same. *)
Theorem load_with_given_name rd file_path sid encoding name g s df enc lt :
  session_map g !! sid = Some s →
  load_csv rd file_path encoding = Ok (df, enc, lt) →
  let r := load_csv_file rd file_path sid (Some name) encoding g in
  session_map (snd r) = <[sid := bind_variable name df s]> (session_map g) ∧
  user_ns (shell (bind_variable name df s)) !! name = Some df ∧
  (∀ e, frame_info df = Raise e → is_Exception e = true →
        ∃ msg, fst r = Ok (failure msg)) ∧
  (∀ info, frame_info df = Ok info →
           ∃ d, fst r = Ok d ∧ d !! "success" = Some (VBool true) ∧
                d !! "variable_name" = Some (VStr name)).
Proof.
  intros Hs Hload r. subst r.
  destruct (get_session_found g sid s Hs) as (Hm & Hg & Hget).
  unfold load_csv_file, load_csv_file_body.
  assert (PANDAS_AVAILABLE = true) as ->.
  { unfold load_csv in Hload. by destruct PANDAS_AVAILABLE. }
  simpl. rewrite Hm, Hget, Hload. unfold store_frame. simpl.
  split.
  { by rewrite <- get_session_manager_sessions, Hm. }
  split; [apply lookup_insert_eq|]. split.
  - intros e -> He.
    unfold except_FileNotFound_ValueError_Exception, except_as. simpl.
    destruct (is_FileNotFoundError e); simpl; [by eauto|].
    destruct (is_ValueError e); simpl; [by eauto|].
    rewrite He. by eauto.
  - intros [[[shape columns] dtypes] mem] ->. simpl. by eexists.
Qed.

End LoadingMore.


(** ** Parts of the read-only tools *)

Section SummaryMore.
Context {U : Universe}.

Lemma count_one_at k (summary : kind → Z) k' :
  count_one k summary k' = (summary k' + if decide (k' = k) then 1 else 0)%Z.
Proof. unfold count_one. case_decide; lia. Qed.

Lemma count_one_total k (summary : kind → Z) :
  let summary' := count_one k summary in
  (summary' Dataframes + summary' Lists + summary' Scalars + summary' Functions
   + summary' Others
   = summary Dataframes + summary Lists + summary Scalars + summary Functions
     + summary Others + 1)%Z.
Proof.
  intros summary'. subst summary'. rewrite !count_one_at.
  destruct k; repeat case_decide; try done; lia.
Qed.

Lemma count_one_fold (l : list (string * list (string * pyval))) :
  let summary :=
    foldr (λ kv summary, count_one (kind_of (type_name kv.2)) summary)
      variable_summary_init l in
  (∀ k, summary k
        = Z.of_nat (length (filter (λ kv, kind_of (type_name kv.2) = k) l))) ∧
  (summary Dataframes + summary Lists + summary Scalars + summary Functions
   + summary Others = Z.of_nat (length l))%Z.
Proof.
  induction l as [|kv l [IHk IHsum]]; [done|].
  cbn [foldr]. cbv zeta. split.
  - intros k. rewrite count_one_at, filter_cons, IHk.
    destruct (decide (k = kind_of (type_name kv.2))) as [->|Hne].
    + rewrite decide_True by done. simpl. lia.
    + rewrite decide_False by done. lia.
  - pose proof (count_one_total (kind_of (type_name kv.2))
                  (foldr (λ kv summary, count_one (kind_of (type_name kv.2)) summary)
                     variable_summary_init l)) as Hstep.
    cbv zeta in Hstep. rewrite Hstep. cbn [length]. lia.
Qed.

(** X20.  The summary of [get_session_status] sorts every variable into
    one kind: each counter is the number of variables whose type name
    falls to that kind in the chain of tests, and the five counters add
    up to the number of variables, the [variable_count] of the
    session. *)
Theorem variable_summary_partitions
    (variables : gmap string (list (string * pyval))) :
  let summary := variable_summary variables in
  (∀ k, summary k
        = Z.of_nat (length (filter (λ kv, kind_of (type_name kv.2) = k)
                              (map_to_list variables)))) ∧
  (summary Dataframes + summary Lists + summary Scalars + summary Functions
   + summary Others = Z.of_nat (size variables))%Z.
Proof.
  intros summary. subst summary. unfold variable_summary.
  destruct (count_one_fold (map_to_list variables)) as [Hk Hsum].
  split; [exact Hk|]. by rewrite Hsum, length_map_to_list.
Qed.

End SummaryMore.

Section SamplingMore.
Context {A : Type}.
Variable pick : nat → list A → list A.

(** What [sample] promises: as many values as were asked for, when
    there are that many. *)
Hypothesis pick_length : ∀ n l, n ≤ length l → length (pick n l) = n.

Lemma lastn_0 (l : list A) : lastn 0 l = [].
Proof. unfold lastn. rewrite Nat.sub_0_r. apply drop_all. Qed.

(** X21.  The mixed method of [sample_column_data] returns as many
    values as were asked for, or all of them when the column has fewer
    (and none for a negative request): the first [h] values, the last
    [t] and [r] drawn from those strictly between, where the three
    sizes differ by at most one, [r ≤ t ≤ h ≤ r + 1], so that no
    position is taken twice. *)
Theorem mixed_sample_split (sample_size : Z) (column_data : list A) :
  let n := Z.to_nat (sample_size `min` Z.of_nat (length column_data)) in
  ∃ h t r,
    h + t + r = n ∧ r ≤ t ∧ t ≤ h ∧ h ≤ r + 1 ∧
    h + t + r ≤ length column_data ∧
    mixed_sample pick sample_size column_data
    = take h column_data ++ lastn t column_data
      ++ pick r (drop h (take (length column_data - t) column_data)) ∧
    length (mixed_sample pick sample_size column_data) = n.
Proof.
  intros n. subst n. unfold mixed_sample, mixed_sizes.
  set (total := Z.of_nat (length column_data)).
  set (a := (sample_size `min` total)%Z).
  assert (a ≤ total)%Z as Ha by lia.
  pose proof (Z.div_mod a 3 ltac:(lia)) as Hdm.
  pose proof (Z.mod_pos_bound a 3 ltac:(lia)) as Hb.
  set (q := (a / 3)%Z) in *. set (m := (a mod 3)%Z) in *.
  set (hz := (q + if (0 <? m)%Z then 1 else 0)%Z).
  set (tz := (q + if (1 <? m)%Z then 1 else 0)%Z).
  assert (hz + tz + q = a ∧ q ≤ tz ∧ tz ≤ hz ∧ hz ≤ q + 1)%Z as Hsizes.
  { subst hz tz. destruct (Z.ltb_spec 0 m), (Z.ltb_spec 1 m); lia. }
  clearbody hz tz. clear Hdm Hb. clearbody q. clear m.
  assert (pick 0 (drop (Z.to_nat hz)
                    (take (length column_data - Z.to_nat tz) column_data)) = [])
    as Hpick0.
  { apply nil_length_inv, pick_length. lia. }
  exists (Z.to_nat hz), (Z.to_nat tz), (Z.to_nat q).
  assert (mixed : ∀ l : list A,
            l = take (Z.to_nat hz) column_data ++ lastn (Z.to_nat tz) column_data
                ++ pick (Z.to_nat q)
                     (drop (Z.to_nat hz)
                        (take (length column_data - Z.to_nat tz) column_data)) →
            Z.to_nat hz + Z.to_nat tz + Z.to_nat q = Z.to_nat a ∧
            Z.to_nat q ≤ Z.to_nat tz ∧ Z.to_nat tz ≤ Z.to_nat hz ∧
            Z.to_nat hz ≤ Z.to_nat q + 1 ∧
            Z.to_nat hz + Z.to_nat tz + Z.to_nat q ≤ length column_data ∧
            l = take (Z.to_nat hz) column_data ++ lastn (Z.to_nat tz) column_data
                ++ pick (Z.to_nat q)
                     (drop (Z.to_nat hz)
                        (take (length column_data - Z.to_nat tz) column_data)) ∧
            length l = Z.to_nat a).
  { intros l ->.
    assert (Z.to_nat hz + Z.to_nat tz + Z.to_nat q ≤ length column_data) as Hfit.
    { subst total. lia. }
    repeat (split; [lia || done|]).
    rewrite !length_app, length_take, length_lastn, pick_length.
    - lia.
    - rewrite length_drop, length_take. lia. }
  apply mixed.
  destruct (Z.ltb_spec 0 hz) as [Hh|Hh]; simpl.
  - destruct (Z.ltb_spec 0 tz) as [Ht|Ht]; simpl.
    + destruct (Z.ltb_spec 0 q) as [Hq|Hq]; simpl.
      * destruct (Z.ltb_spec (hz + tz) total) as [Hroom|Hroom]; [|subst total; lia].
        set (middle := drop (Z.to_nat hz)
                         (take (length column_data - Z.to_nat tz) column_data)).
        assert (Z.to_nat q ≤ length middle) as Hmid.
        { subst middle total. rewrite length_drop, length_take. lia. }
        destruct (Nat.ltb_spec 0 (length middle)) as [_|Hempty]; [|lia].
        rewrite <- app_assoc. do 3 f_equal. lia.
      * replace (Z.to_nat q) with 0 by lia. by rewrite Hpick0, app_nil_r.
    + replace (Z.to_nat tz) with 0 in * by lia.
      replace (Z.to_nat q) with 0 by lia.
      rewrite lastn_0, Hpick0, !app_nil_r.
      destruct ((0 <? q)%Z && (hz + tz <? total)%Z) eqn:E; [|done].
      apply andb_true_iff in E as [E _]. apply Z.ltb_lt in E. lia.
  - replace (Z.to_nat hz) with 0 in * by lia.
    replace (Z.to_nat tz) with 0 in * by lia.
    replace (Z.to_nat q) with 0 by lia.
    rewrite lastn_0, Hpick0. simpl.
    destruct (Z.ltb_spec 0 tz) as [Ht|Ht]; [lia|]. simpl.
    destruct (Z.ltb_spec 0 q) as [Hq|Hq]; [lia|]. done.
Qed.

End SamplingMore.

Section TruncationMore.
Context {A : Type}.

(** X22.  Cutting a text at a limit that is not negative leaves a text
    of at most the limit and the dots; it leaves a text within the
    limit as it is and keeps the first [limit] characters of a longer
    one, and cutting a second time changes nothing. *)
Theorem truncate_text_bounded (dots s : list A) (limit : Z) :
  (0 ≤ limit)%Z →
  length (truncate_text dots limit s) ≤ Z.to_nat limit + length dots ∧
  (length s ≤ Z.to_nat limit → truncate_text dots limit s = s) ∧
  (Z.to_nat limit < length s →
   truncate_text dots limit s = take (Z.to_nat limit) s ++ dots) ∧
  truncate_text dots limit (truncate_text dots limit s) = truncate_text dots limit s.
Proof.
  intros Hlimit.
  assert (∀ t : list A, length t ≤ Z.to_nat limit → truncate_text dots limit t = t)
    as Hshort.
  { intros t Ht. unfold truncate_text.
    destruct (Z.ltb_spec limit (Z.of_nat (length t))); [lia | done]. }
  assert (∀ t : list A, Z.to_nat limit < length t →
            truncate_text dots limit t = take (Z.to_nat limit) t ++ dots) as Hlong.
  { intros t Ht. unfold truncate_text, py_prefix.
    destruct (Z.ltb_spec limit (Z.of_nat (length t))); [|lia].
    destruct (Z.leb_spec 0 limit); [done | lia]. }
  split; [|split; [apply Hshort | split; [apply Hlong|]]].
  - destruct (decide (length s ≤ Z.to_nat limit)) as [Hs|Hs].
    + rewrite Hshort by done. lia.
    + rewrite Hlong by lia. rewrite length_app, length_take. lia.
  - destruct (decide (length s ≤ Z.to_nat limit)) as [Hs|Hs].
    + rewrite (Hshort s Hs). by apply Hshort.
    + rewrite (Hlong s) by lia.
      destruct (decide (length dots = 0)) as [Hd|Hd].
      * apply Hshort. rewrite length_app, length_take. lia.
      * rewrite Hlong by (rewrite length_app, length_take; lia).
        rewrite take_app_le by (rewrite length_take; lia).
        by rewrite take_take, Nat.min_id.
Qed.

End TruncationMore.


(** ** The reads of the loaders *)

Section ReadsOfLoaders.
Context {U : Universe} {RT : @Runtime U}.

(** X23.  For a file named [.xlsx] or [.xls], [load_excel] reads once,
    with the engine of the extension, and never with another: the frame
    or the exception of that read is what it returns.  When the library
    of the extension is missing it reads nothing and raises an
    [ImportError] that names the library, even though the other library
    is there. *)
Theorem load_excel_known_extension rd file_path sheet_name (ext engine : string)
    (available : bool) :
  PANDAS_AVAILABLE = true →
  EXCEL_AVAILABLE = true →
  path_exists file_path = true →
  path_suffix_lower file_path = ext →
  (ext, engine, available) ∈ [(".xlsx", "openpyxl", EXCEL_XLSX_AVAILABLE);
                              (".xls", "xlrd", EXCEL_XLS_AVAILABLE)] →
  if available then
    match load_excel rd file_path sheet_name with
    | Ok (df, lt) =>
        read_excel file_path sheet_name (Some engine) = Ok df ∧ lt = load_time rd
    | Raise e => read_excel file_path sheet_name (Some engine) = Raise e
    end
  else
    load_excel rd file_path sheet_name
    = Raise (mk_exn ImportError
               (engine +:+ " is required for " +:+ ext
                +:+ " files. Install with: pip install " +:+ engine)).
Proof.
  intros Hpd Hxl Hex Hext Hin.
  unfold load_excel. rewrite Hpd, Hxl, Hex, Hext. simpl.
  apply elem_of_cons in Hin as [Hin|Hin];
    [|apply elem_of_cons in Hin as [Hin|Hin]; [|by apply elem_of_nil in Hin]];
    injection Hin as -> -> ->; simpl.
  - destruct EXCEL_XLSX_AVAILABLE; simpl; [|done].
    destruct (read_excel file_path sheet_name (Some "openpyxl")) as [df|e]; simpl;
      [done|].
    by destruct (is_Exception e).
  - destruct EXCEL_XLS_AVAILABLE; simpl; [|done].
    destruct (read_excel file_path sheet_name (Some "xlrd")) as [df|e]; simpl;
      [done|].
    by destruct (is_Exception e).
Qed.

Lemma detect_encoding_member file_path enc :
  detect_encoding file_path = Ok enc → enc ∈ encodings.
Proof.
  unfold detect_encoding. intros H.
  pose proof (detect_encoding_from_spec encodings file_path) as Hspec.
  rewrite H in Hspec. destruct Hspec as [(before & after & Heq & _)|[-> _]].
  - rewrite Heq. apply elem_of_app. right. left.
  - left.
Qed.

Lemma failure_not_success msg :
  failure msg !! "success" ≠ Some (VBool true).
Proof. done. Qed.

(** X24.  When [load_csv_file] reports success, the encoding it reports
    is the one the file was parsed with: the encoding given by the
    caller, or, for [auto], the one [detect_encoding] returned, which is
    one of the five it knows. *)
Theorem load_csv_file_reports_encoding rd file_path sid variable_name encoding g d :
  fst (load_csv_file rd file_path sid variable_name encoding g) = Ok d →
  d !! "success" = Some (VBool true) →
  ∃ enc df,
    d !! "encoding_detected" = Some (VStr enc) ∧
    read_csv file_path enc = Ok df ∧
    (encoding ≠ "auto" → enc = encoding) ∧
    (encoding = "auto" → detect_encoding file_path = Ok enc ∧ enc ∈ encodings).
Proof.
  unfold load_csv_file, load_csv_file_body.
  destruct (negb PANDAS_AVAILABLE) eqn:Hpd; simpl.
  { intros [= <-] H. by apply failure_not_success in H. }
  destruct (get_session_manager g) as [manager g0]. simpl.
  assert (∀ e r, except_FileNotFound_ValueError_Exception "Failed to load CSV file: "
                   (Raise e) = Ok r → r !! "success" ≠ Some (VBool true)) as Hexcept.
  { intros e r. unfold except_FileNotFound_ValueError_Exception, except_as. simpl.
    destruct (is_FileNotFoundError e); simpl; [by intros [= <-]|].
    destruct (is_ValueError e); simpl; [by intros [= <-]|].
    destruct (is_Exception e); simpl; [by intros [= <-] | done]. }
  destruct (get_session sid manager) as [session|e]; simpl.
  2: { intros H Hd. by apply Hexcept in H. }
  destruct (load_csv rd file_path encoding) as [[[df enc] lt]|e] eqn:Hload; simpl.
  2: { intros H Hd. by apply Hexcept in H. }
  unfold store_frame. simpl.
  destruct (frame_info df) as [[[[shape columns] dtypes] mem]|e]; simpl.
  2: { intros H Hd. by apply Hexcept in H. }
  intros [= <-] _. exists enc, df. split; [done|].
  unfold load_csv in Hload. rewrite Hpd in Hload.
  destruct (negb (path_exists file_path)); [done|].
  destruct (bool_decide_reflect (encoding = "auto")) as [->|Hne]; simpl in Hload.
  - pose proof (detect_encoding_member file_path) as Hdet.
    destruct (detect_encoding file_path) as [enc'|]; simpl in Hload; [|done].
    destruct (read_csv file_path enc') as [df'|] eqn:Hread; simpl in Hload; [|done].
    injection Hload as <- <- <-. split; [done|]. split; [done|].
    intros _. split; [done|]. by apply Hdet.
  - destruct (read_csv file_path encoding) as [df'|] eqn:Hread; simpl in Hload; [|done].
    injection Hload as <- <- <-. split; [done|]. split; [done|]. by intros ->.
Qed.

End ReadsOfLoaders.

(** ** The properties on the small runtime *)

Lemma execute_restores_colors_witness :
  let c := Call false toy_readings "x = 1" in
  cell_returned (RT := toy_runtime true) c toy_session = true ∧
  colors (shell (snd (run_call (RT := toy_runtime true) c toy_session)))
  = colors (shell toy_session).
Proof.
  split; [reflexivity|].
  exact (execute_restores_colors (RT := toy_runtime true)
           (Call false toy_readings "x = 1") toy_session eq_refl).
Defined.

Lemma history_counts_increase_witness :
  counts_increase toy_session ∧
  counts_increase (run_calls (RT := toy_runtime true) toy_calls toy_session).
Proof.
  assert (counts_increase toy_session) as H by (split; constructor).
  split; [exact H|].
  exact (history_counts_increase (RT := toy_runtime true) toy_calls toy_session H).
Defined.

Lemma history_entry_agrees_with_result_witness :
  let c := Call false toy_readings "print('hi')" in
  ∃ r, fst (run_call (RT := toy_runtime true) c toy_session) = Ok r ∧
       completed (RT := toy_runtime true) c toy_session = true ∧
       ∃ entry,
         last (history (snd (run_call (RT := toy_runtime true) c toy_session)))
         = Some entry ∧
         h_execution_count entry = er_execution_count r ∧
         h_success entry = success r ∧
         h_stdout entry = stdout r ∧
         h_stderr entry = stderr r ∧
         h_result entry = result_text r ∧
         h_error entry = error r ∧
         h_execution_time entry = execution_time r.
Proof.
  eexists. split; [reflexivity|]. split; [reflexivity|].
  exact (history_entry_agrees_with_result (RT := toy_runtime true)
           (Call false toy_readings "print('hi')") toy_session _ eq_refl eq_refl).
Defined.

Lemma unknown_session_reported_witness :
  let c := ExecuteCode "1" "nope" true false in
  session_of c = Some "nope" ∧
  ("nope" ∉ dom (session_map (toy_globals true))) ∧
  ∃ msg, fst (run_tool (RT := toy_runtime true) toy_readings c (toy_globals true))
         = Ok (failure msg) ∧
         session_map (snd (run_tool (RT := toy_runtime true) toy_readings c
                             (toy_globals true)))
         = session_map (toy_globals true) ∧
         (guards_pass (RT := toy_runtime true) c = true →
          msg = "Session nope not found").
Proof.
  assert ("nope" ∉ dom (session_map (toy_globals true))) as Hout.
  { vm_compute. set_solver. }
  split; [reflexivity|]. split; [exact Hout|].
  exact (unknown_session_reported (RT := toy_runtime true) toy_readings
           (ExecuteCode "1" "nope" true false) (toy_globals true) "nope" eq_refl Hout).
Defined.

Lemma create_then_delete_witness :
  let r := create_ipython_session (RT := toy_runtime true) toy_readings (Some "s2")
             false (toy_globals true) in
  ∃ d, fst r = Ok d ∧ d !! "success" = Some (VBool true) ∧
       ∃ id, d !! "session_id" = Some (VStr id) ∧
             fst (delete_ipython_session id (snd r))
             = Ok {[ "success" := VBool true;
                     "message" := VStr ("Session " +:+ id +:+ " deleted successfully") ]} ∧
             session_map (snd (delete_ipython_session id (snd r)))
             = session_map (toy_globals true).
Proof.
  eexists. split; [reflexivity|]. split; [reflexivity|].
  exact (create_then_delete (RT := toy_runtime true) toy_readings (Some "s2") false
           (toy_globals true) _ eq_refl eq_refl).
Defined.

Lemma create_survives_optional_setup_witness :
  IPYTHON_AVAILABLE (Runtime := toy_runtime true) = true ∧
  InteractiveShell (Runtime := toy_runtime true)
  = Ok {| colors := "Linux"; user_ns := ∅; shell_kernel := toy_kernel |} ∧
  ("s2" ∉ dom (session_map (toy_globals true))) ∧
  match fst (create_ipython_session (RT := toy_runtime true) toy_readings (Some "s2")
               true (toy_globals true)) with
  | Ok d =>
      d !! "success" = Some (VBool true) ∧
      d !! "session_id" = Some (VStr "s2") ∧
      d !! "auto_imported" = Some (VList (VStr <$> auto_imported_names))
  | Raise e => is_Exception e = false
  end.
Proof.
  assert ("s2" ∉ dom (session_map (toy_globals true))) as Hout.
  { vm_compute. set_solver. }
  split; [reflexivity|]. split; [reflexivity|]. split; [exact Hout|].
  exact (create_survives_optional_setup (RT := toy_runtime true) toy_readings
           (Some "s2") true (toy_globals true) _ eq_refl eq_refl Hout).
Defined.

Lemma get_execution_history_window_witness :
  let s := run_calls (RT := toy_runtime true) toy_calls toy_session in
  let g := Some (put_session "s1" s {| sessions := ∅ |}) in
  session_map g !! "s1" = Some s ∧
  ∃ shown,
    get_execution_history "s1" 2 true g
    = (Ok {[ "success" := VBool true;
             "history" := VList (entry_val true <$> shown);
             "total_executions" := VInt 3 ]}, g) ∧
    suffix shown (history s) ∧
    length shown = 2.
Proof.
  split; [reflexivity|].
  exact (get_execution_history_window "s1" 2 true
           (Some (put_session "s1"
                    (run_calls (RT := toy_runtime true) toy_calls toy_session)
                    {| sessions := ∅ |}))
           (run_calls (RT := toy_runtime true) toy_calls toy_session) eq_refl).
Defined.

Lemma clear_variables_by_name_witness :
  let s := run_calls (RT := toy_runtime true) toy_calls toy_session in
  let g := Some (put_session "s1" s {| sessions := ∅ |}) in
  session_map g !! "s1" = Some s ∧
  ["x"; "y"] ≠ [] ∧
  ∃ ns' cleared d,
    clear_variables (RT := toy_runtime true) toy_readings "s1" (Some ["x"; "y"])
      false false g
    = (Ok d, Some (put_session "s1" (with_namespace ns' s)
                     (default {| sessions := ∅ |} g))) ∧
    d !! "success" = Some (VBool true) ∧
    d !! "cleared_variables" = Some (VList (VStr <$> cleared)) ∧
    NoDup cleared ∧
    (∀ k, k ∈ cleared ↔ k ∈ ["x"; "y"] ∧ k ∈ dom (user_ns (shell s))) ∧
    (∀ k, ns' !! k = if decide (k ∈ ["x"; "y"]) then None else user_ns (shell s) !! k).
Proof.
  split; [reflexivity|]. split; [discriminate|].
  exact (clear_variables_by_name (RT := toy_runtime true) toy_readings "s1"
           ["x"; "y"] false
           (Some (put_session "s1"
                    (run_calls (RT := toy_runtime true) toy_calls toy_session)
                    {| sessions := ∅ |}))
           (run_calls (RT := toy_runtime true) toy_calls toy_session)
           eq_refl ltac:(discriminate)).
Defined.


Lemma clear_variables_needs_a_target_witness :
  session_map (toy_globals true) !! "s1" = Some toy_session ∧
  clear_variables (RT := toy_runtime true) toy_readings "s1" (Some []) false true
    (toy_globals true)
  = (Ok (failure "Must specify either variable_names or set clear_all=True"),
     toy_globals true).
Proof.
  split; [reflexivity|].
  exact (clear_variables_needs_a_target (RT := toy_runtime true) toy_readings "s1"
           (Some []) true (toy_globals true) toy_session eq_refl (or_intror eq_refl)).
Defined.

Lemma load_excel_engine_order_witness :
  PANDAS_AVAILABLE (Runtime := toy_runtime true) = true ∧
  EXCEL_AVAILABLE (RT := toy_runtime true) = true ∧
  path_exists (Runtime := toy_runtime true) "book.dat" = true ∧
  (path_suffix_lower (Runtime := toy_runtime true) "book.dat" ∉ [".xlsx"; ".xls"]) ∧
  let read := read_excel (Runtime := toy_runtime true) "book.dat" (SheetIndex 0) in
  match load_excel (RT := toy_runtime true) toy_readings "book.dat" (SheetIndex 0) with
  | Ok (df, lt) =>
      lt = load_time (RT := toy_runtime true) toy_readings ∧
      (read None = Ok df ∨
       ∃ e, read None = Raise e ∧ is_Exception e = true ∧
            (read (Some "openpyxl") = Ok df ∨
             ∃ e', read (Some "openpyxl") = Raise e' ∧ read (Some "xlrd") = Ok df))
  | Raise e =>
      read None = Raise e ∧
      (is_Exception e = true →
       ∃ e1 e2, read (Some "openpyxl") = Raise e1 ∧ read (Some "xlrd") = Raise e2)
  end.
Proof.
  assert (path_suffix_lower (Runtime := toy_runtime true) "book.dat"
          ∉ [".xlsx"; ".xls"]) as Hext.
  { apply not_elem_of_cons. split; [discriminate|].
    apply not_elem_of_cons. split; [discriminate|]. apply not_elem_of_nil. }
  split; [reflexivity|]. split; [reflexivity|]. split; [reflexivity|].
  split; [exact Hext|].
  exact (load_excel_engine_order (RT := toy_runtime true) toy_readings "book.dat"
           (SheetIndex 0) eq_refl eq_refl eq_refl Hext).
Defined.

Lemma load_with_given_name_witness :
  let r := load_csv_file (RT := toy_runtime true) toy_readings "data.csv" "s1"
             (Some "sales") "auto" (toy_globals true) in
  let df := toy_obj "frame of data.csv" in
  session_map (toy_globals true) !! "s1" = Some toy_session ∧
  load_csv (RT := toy_runtime true) toy_readings "data.csv" "auto"
  = Ok (df, "utf-8", toy_float 2) ∧
  session_map (snd r)
  = <["s1" := bind_variable "sales" df toy_session]> (session_map (toy_globals true)) ∧
  user_ns (shell (bind_variable "sales" df toy_session)) !! "sales" = Some df ∧
  ∃ d, fst r = Ok d ∧ d !! "success" = Some (VBool true) ∧
       d !! "variable_name" = Some (VStr "sales").
Proof.
  pose proof (load_with_given_name (RT := toy_runtime true) toy_readings "data.csv"
                "s1" "auto" "sales" (toy_globals true) toy_session
                (toy_obj "frame of data.csv") "utf-8" (toy_float 2) eq_refl eq_refl)
    as (Hmap & Hbound & _ & Hok).
  split; [reflexivity|]. split; [reflexivity|].
  split; [exact Hmap|]. split; [exact Hbound|].
  exact (Hok _ eq_refl).
Defined.

Lemma mixed_sample_split_witness :
  let column_data := [10; 11; 12; 13; 14; 15; 16; 17; 18; 19]%Z in
  (∀ n (l : list Z), n ≤ length l → length (take n l) = n) ∧
  mixed_sample take 5 column_data = [10; 11; 18; 19; 12]%Z ∧
  ∃ h t r,
    h + t + r = 5 ∧ r ≤ t ∧ t ≤ h ∧ h ≤ r + 1 ∧
    h + t + r ≤ length column_data ∧
    mixed_sample take 5 column_data
    = take h column_data ++ lastn t column_data
      ++ take r (drop h (take (length column_data - t) column_data)) ∧
    length (mixed_sample take 5 column_data) = 5.
Proof.
  assert (∀ n (l : list Z), n ≤ length l → length (take n l) = n) as Hpick.
  { intros n l Hn. rewrite length_take. lia. }
  split; [exact Hpick|]. split; [reflexivity|].
  exact (mixed_sample_split take Hpick 5 [10; 11; 12; 13; 14; 15; 16; 17; 18; 19]%Z).
Defined.

Lemma truncate_text_bounded_witness :
  let s := [104; 101; 108; 108; 111; 32; 119; 111; 114; 108; 100]%Z in
  let dots := [46; 46; 46]%Z in
  (0 ≤ 5)%Z ∧
  truncate_text dots 5 s = [104; 101; 108; 108; 111; 46; 46; 46]%Z ∧
  length (truncate_text dots 5 s) ≤ Z.to_nat 5 + length dots ∧
  truncate_text dots 5 (truncate_text dots 5 s) = truncate_text dots 5 s.
Proof.
  assert (0 ≤ 5)%Z as H by lia.
  pose proof (truncate_text_bounded [46; 46; 46]%Z
                [104; 101; 108; 108; 111; 32; 119; 111; 114; 108; 100]%Z 5 H)
    as (Hlen & _ & _ & Hidem).
  split; [exact H|]. split; [reflexivity|]. split; [exact Hlen | exact Hidem].
Defined.

Lemma load_excel_known_extension_witness :
  PANDAS_AVAILABLE (Runtime := xlsx_runtime) = true ∧
  EXCEL_AVAILABLE (RT := xlsx_runtime) = true ∧
  path_exists (Runtime := xlsx_runtime) "data.csv" = true ∧
  path_suffix_lower (Runtime := xlsx_runtime) "data.csv" = ".xlsx" ∧
  ((".xlsx", "openpyxl", true)
   ∈ [(".xlsx", "openpyxl", EXCEL_XLSX_AVAILABLE (Runtime := xlsx_runtime));
      (".xls", "xlrd", EXCEL_XLS_AVAILABLE (Runtime := xlsx_runtime))]) ∧
  match load_excel (RT := xlsx_runtime) toy_readings "data.csv" (SheetIndex 0) with
  | Ok (df, lt) =>
      read_excel (Runtime := xlsx_runtime) "data.csv" (SheetIndex 0) (Some "openpyxl")
      = Ok df ∧
      lt = load_time (RT := xlsx_runtime) toy_readings
  | Raise e =>
      read_excel (Runtime := xlsx_runtime) "data.csv" (SheetIndex 0) (Some "openpyxl")
      = Raise e
  end.
Proof.
  assert ((".xlsx", "openpyxl", true)
          ∈ [(".xlsx", "openpyxl", EXCEL_XLSX_AVAILABLE (Runtime := xlsx_runtime));
             (".xls", "xlrd", EXCEL_XLS_AVAILABLE (Runtime := xlsx_runtime))]) as Hin.
  { left. }
  split; [reflexivity|]. split; [reflexivity|]. split; [reflexivity|].
  split; [reflexivity|]. split; [exact Hin|].
  exact (load_excel_known_extension (RT := xlsx_runtime) toy_readings "data.csv"
           (SheetIndex 0) ".xlsx" "openpyxl" true eq_refl eq_refl eq_refl eq_refl Hin).
Defined.

Lemma load_csv_file_reports_encoding_witness :
  let r := load_csv_file (RT := toy_runtime true) toy_readings "data.csv" "s1" None
             "auto" (toy_globals true) in
  ∃ d, fst r = Ok d ∧ d !! "success" = Some (VBool true) ∧
       ∃ enc df,
         d !! "encoding_detected" = Some (VStr enc) ∧
         read_csv (Runtime := toy_runtime true) "data.csv" enc = Ok df ∧
         ("auto" ≠ "auto" → enc = "auto") ∧
         ("auto" = "auto" →
          detect_encoding (RT := toy_runtime true) "data.csv" = Ok enc ∧
          enc ∈ encodings).
Proof.
  eexists. split; [reflexivity|]. split; [reflexivity|].
  exact (load_csv_file_reports_encoding (RT := toy_runtime true) toy_readings
           "data.csv" "s1" None "auto" (toy_globals true) _ eq_refl eq_refl).
Defined.
